(** * MCP workshop servers: a shallow embedding of the two Node examples

    The repository ships two line-oriented JSON-RPC servers written for
    Node: [examples/simple-server/index.js] (tools [echo] and [add]) and
    [examples/prompts-server/index.js] (tool [markdown_summary] and the
    prompt templates).  Both read one line at a time, parse it with
    [JSON.parse], dispatch on [method] and answer with one call of [send].

    The development models JavaScript values, the part of Zod and of
    Mustache the servers use, and then the two servers, function by
    function.  Functions of the platform that are not part of the
    repository ([JSON.parse], the printing of numbers, the text of an
    engine's [TypeError]) are fields of the class [Runtime]; module [Node]
    gives an executable instance. *)

From Stdlib Require Import String Ascii.
From Stdlib Require Import ZArith NArith List Bool Lia.
From Stdlib Require Import Floats.SpecFloat.
Import ListNotations.
Local Open Scope list_scope.
Set Warnings "-register-all".

(** ** JavaScript strings and numbers *)

Module JS.

(** A JavaScript string is a sequence of UTF-16 code units; [length]
    counts code units and [===] compares code unit by code unit. *)
Definition code_unit := N.
Definition jsstring := list code_unit.

(** A string literal of the source, all of which are ASCII. *)
Definition lit (s : string) : jsstring :=
  map N_of_ascii (list_ascii_of_string s).

Fixpoint str_eqb (a b : jsstring) : bool :=
  match a, b with
  | [], [] => true
  | x :: a', y :: b' => (x =? y)%N && str_eqb a' b'
  | _, _ => false
  end.

(** A JavaScript number is an IEEE 754 binary64 value. *)
Definition number := spec_float.
Definition prec : Z := 53.
Definition emax : Z := 1024.

Definition number_of_Z (z : Z) : number := binary_normalize prec emax z 0 false.
Definition number_of_nat (n : nat) : number := number_of_Z (Z.of_nat n).

(** [a + b] on two numbers. *)
Definition js_add (a b : number) : number := SFadd prec emax a b.

(** ** Values

    [JObj] lists the own enumerable properties of a plain object in
    property order; [JUndefined] is the value of a missing property. *)
Inductive value :=
| JUndefined
| JNull
| JBool (b : bool)
| JNum (n : number)
| JStr (s : jsstring)
| JArr (items : list value)
| JObj (props : list (jsstring * value)).

Fixpoint assoc {A} (k : jsstring) (l : list (jsstring * A)) : option A :=
  match l with
  | [] => None
  | (k', a) :: rest => if str_eqb k k' then Some a else assoc k rest
  end.

(** [v.k] through destructuring, for a key [k] that no built-in prototype
    defines (the servers read [id], [method], [params], [name],
    [arguments] and [variables], and Zod and Mustache read the keys of
    the schemas).  Reading a property of a primitive or of an array
    yields [undefined]; reading one of [null] or [undefined] throws, which
    callers handle before they come here. *)
Definition get_prop (v : value) (k : jsstring) : value :=
  match v with
  | JObj props => match assoc k props with Some x => x | None => JUndefined end
  | _ => JUndefined
  end.

(** [k in v] for a plain object and such a key. *)
Definition has_prop (v : value) (k : jsstring) : bool :=
  match v with
  | JObj props => match assoc k props with Some _ => true | None => false end
  | _ => false
  end.

(** Destructuring [const { ... } = v] throws a [TypeError] on [null] and
    [undefined] and on nothing else. *)
Definition nullish (v : value) : bool :=
  match v with
  | JUndefined | JNull => true
  | _ => false
  end.

(** ToBoolean. *)
Definition truthy (v : value) : bool :=
  match v with
  | JUndefined | JNull => false
  | JBool b => b
  | JNum (S754_zero _) | JNum S754_nan => false
  | JNum _ => true
  | JStr s => match s with [] => false | _ => true end
  | JArr _ | JObj _ => true
  end.

(** [v || {}]. *)
Definition or_empty_object (v : value) : value :=
  if truthy v then v else JObj [].

(** [v === 'literal']. *)
Definition is_string (v : value) (s : jsstring) : bool :=
  match v with
  | JStr s' => str_eqb s' s
  | _ => false
  end.

(** The object literals [{ jsonrpc: '2.0', id, result }] and
    [{ jsonrpc: '2.0', id, error }] of the two servers. *)
Definition result_envelope (id result : value) : value :=
  JObj [(lit "jsonrpc", JStr (lit "2.0")); (lit "id", id); (lit "result", result)].

Definition error_envelope (id error : value) : value :=
  JObj [(lit "jsonrpc", JStr (lit "2.0")); (lit "id", id); (lit "error", error)].

(** White space and line terminators, the characters [String.prototype.trim]
    removes and the regular expression class [\s] matches. *)
Definition is_whitespace (c : code_unit) : bool :=
  ((9 <=? c) && (c <=? 13) || (c =? 32) || (c =? 160) || (c =? 5760)
   || (8192 <=? c) && (c <=? 8202) || (c =? 8232) || (c =? 8233)
   || (c =? 8239) || (c =? 8287) || (c =? 12288) || (c =? 65279))%N.

Fixpoint trim_start (s : jsstring) : jsstring :=
  match s with
  | c :: rest => if is_whitespace c then trim_start rest else s
  | [] => []
  end.

Definition trim_end (s : jsstring) : jsstring := rev (trim_start (rev s)).

Definition trim (s : jsstring) : jsstring := trim_end (trim_start s).

(** [s.split(/\s+/)]: the pieces between the maximal runs of white space,
    the empty pieces at the two ends included.  [piece] is the current
    piece in reverse, [in_run] says that the last character was white. *)
Fixpoint split_pieces (piece : jsstring) (in_run : bool) (s : jsstring)
    : list jsstring :=
  match s with
  | [] => [rev piece]
  | c :: rest =>
      if is_whitespace c
      then if in_run then split_pieces [] true rest
           else rev piece :: split_pieces [] true rest
      else split_pieces (c :: piece) false rest
  end.

Definition split_whitespace (s : jsstring) : list jsstring :=
  split_pieces [] false s.

(** ** The platform

    An error the engine itself raises. *)
Inductive native_error :=
| cannot_destructure (v : value) (property source : jsstring)
| cannot_read (v : value) (property : jsstring)
| cannot_convert (v : value)
| not_a_function (callee : jsstring)
| invalid_json (text : jsstring).

(** How an error message names a parameter that is destructured. *)
Definition parameter_text (v : value) : jsstring :=
  match v with
  | JNull => lit "object null"
  | _ => lit "undefined"
  end.

(** [JSON_parse] returns [None] where [JSON.parse] throws a [SyntaxError];
    it parses the text [{}] to the empty object.  [Number_toString] is the
    conversion of a number to a string.  [native_message] is the text of
    the [message] of an error the engine raises. *)
Class Runtime := {
  JSON_parse : jsstring -> option value;
  JSON_parse_empty_object : JSON_parse (lit "{}") = Some (JObj []);
  Number_toString : number -> jsstring;
  native_message : native_error -> jsstring
}.

(** A conversion that returns or makes the engine throw. *)
Definition raises (A : Type) : Type := (native_error + A)%type.

Section Conversions.
Context {R : Runtime}.

(** ToString, as a template literal and a property access apply it.  An
    array is joined; a plain object answers through the [toString] of
    [Object.prototype], unless a property [toString] of its own hides it:
    no JSON value is callable, [valueOf] returns the object itself, and
    the conversion throws a [TypeError]. *)
Fixpoint ToString (v : value) : raises jsstring :=
  match v with
  | JUndefined => inr (lit "undefined")
  | JNull => inr (lit "null")
  | JBool true => inr (lit "true")
  | JBool false => inr (lit "false")
  | JNum n => inr (Number_toString n)
  | JStr s => inr s
  | JArr items =>
      (fix join (first : bool) (l : list value) : raises jsstring :=
         match l with
         | [] => inr []
         | x :: rest =>
             match (if nullish x then inr [] else ToString x) with
             | inl e => inl e
             | inr text =>
                 match join false rest with
                 | inl e => inl e
                 | inr others => inr ((if first then [] else lit ",") ++ text ++ others)
                 end
             end
         end) true items
  | JObj props =>
      match assoc (lit "toString") props with
      | Some _ => inl (cannot_convert v)
      | None => inr (lit "[object Object]")
      end
  end.

(** ToPrimitive and ToNumber, on the values and primitives [a + b] can
    meet: a plain object or an array converts through [toString]. *)
Definition ToPrimitive (v : value) : raises value :=
  match v with
  | JArr _ | JObj _ =>
      match ToString v with
      | inl e => inl e
      | inr text => inr (JStr text)
      end
  | _ => inr v
  end.

Definition ToNumber_primitive (v : value) : number :=
  match v with
  | JNum n => n
  | JNull | JBool false => S754_zero false
  | JBool true => number_of_Z 1
  | _ => S754_nan
  end.

(** The text of a primitive; [ToString] never throws on one. *)
Definition primitive_text (v : value) : jsstring :=
  match ToString v with
  | inr text => text
  | inl _ => []
  end.

(** [a + b]: concatenation when an operand is a string after ToPrimitive,
    the sum of the two numbers otherwise. *)
Definition js_plus (a b : value) : raises value :=
  match ToPrimitive a with
  | inl e => inl e
  | inr pa =>
      match ToPrimitive b with
      | inl e => inl e
      | inr pb =>
          inr match pa, pb with
              | JStr x, _ => JStr (x ++ primitive_text pb)
              | _, JStr y => JStr (primitive_text pa ++ y)
              | _, _ => JNum (js_add (ToNumber_primitive pa) (ToNumber_primitive pb))
              end
      end
  end.

(** *** [JSON.stringify]

    [QuoteJSONString]: the two-character escapes, [\uXXXX] for the other
    control characters and for a surrogate without its partner. *)
Definition hex_digit (n : N) : code_unit :=
  (if n <? 10 then 48 + n else 87 + n)%N.

Definition unicode_escape (c : code_unit) : jsstring :=
  lit "\u" ++ [hex_digit (c / 4096 mod 16); hex_digit (c / 256 mod 16);
               hex_digit (c / 16 mod 16); hex_digit (c mod 16)]%N.

Definition is_lead_surrogate (c : code_unit) : bool := ((55296 <=? c) && (c <=? 56319))%N.
Definition is_trail_surrogate (c : code_unit) : bool := ((56320 <=? c) && (c <=? 57343))%N.

Definition quote_unit (c : code_unit) : jsstring :=
  (if c =? 8 then lit "\b"
   else if c =? 9 then lit "\t"
   else if c =? 10 then lit "\n"
   else if c =? 12 then lit "\f"
   else if c =? 13 then lit "\r"
   else if c =? 34 then [92; 34]
   else if c =? 92 then [92; 92]
   else if (c <? 32) || is_lead_surrogate c || is_trail_surrogate c
   then unicode_escape c
   else [c])%N.

Fixpoint quote_units (s : jsstring) : jsstring :=
  match s with
  | [] => []
  | c :: rest =>
      match rest with
      | d :: rest' =>
          if is_lead_surrogate c && is_trail_surrogate d
          then c :: d :: quote_units rest'
          else quote_unit c ++ quote_units rest
      | [] => quote_unit c
      end
  end.

Definition quote (s : jsstring) : jsstring := [34%N] ++ quote_units s ++ [34%N].

Fixpoint join (sep : jsstring) (l : list jsstring) : jsstring :=
  match l with
  | [] => []
  | [x] => x
  | x :: rest => x ++ sep ++ join sep rest
  end.

Definition is_finite (n : number) : bool :=
  match n with
  | S754_zero _ | S754_finite _ _ _ => true
  | S754_infinity _ | S754_nan => false
  end.

(** [SerializeJSONProperty] with the gap [gap] at the indentation
    [indent]; [None] is the [undefined] the algorithm returns for a value
    that has no JSON text. *)
Fixpoint serialize (gap indent : jsstring) (v : value) : option jsstring :=
  let inner := indent ++ gap in
  let wrap (opening closing : string) (parts : list jsstring) : jsstring :=
    match parts, gap with
    | [], _ => lit opening ++ lit closing
    | _, [] => lit opening ++ join (lit ",") parts ++ lit closing
    | _, _ => lit opening ++ [10%N] ++ inner
              ++ join (lit "," ++ [10%N] ++ inner) parts
              ++ [10%N] ++ indent ++ lit closing
    end in
  match v with
  | JUndefined => None
  | JNull => Some (lit "null")
  | JBool true => Some (lit "true")
  | JBool false => Some (lit "false")
  | JNum n => Some (if is_finite n then Number_toString n else lit "null")
  | JStr s => Some (quote s)
  | JArr items =>
      Some (wrap "["%string "]"%string
        ((fix elements (l : list value) : list jsstring :=
            match l with
            | [] => []
            | x :: rest =>
                match serialize gap inner x with
                | Some text => text
                | None => lit "null"
                end :: elements rest
            end) items))
  | JObj props =>
      Some (wrap "{"%string "}"%string
        ((fix members (l : list (jsstring * value)) : list jsstring :=
            match l with
            | [] => []
            | (k, x) :: rest =>
                match serialize gap inner x with
                | Some text =>
                    (quote k ++ lit ":" ++ (match gap with [] => [] | _ => lit " " end)
                       ++ text) :: members rest
                | None => members rest
                end
            end) props))
  end.

(** [JSON.stringify(v)] and [JSON.stringify(v, replacer, 2)] followed by
    the concatenation the callers apply to the result, which turns
    [undefined] into the text [undefined]. *)
Definition JSON_stringify (v : value) : jsstring :=
  match serialize [] [] v with Some text => text | None => lit "undefined" end.

Definition JSON_stringify_indented (v : value) : jsstring :=
  match serialize (lit "  ") [] v with Some text => text | None => lit "undefined" end.

End Conversions.

(** The properties every plain object inherits from [Object.prototype].
    Each of them is truthy and has none of the properties [schema],
    [inputSchema], [handler] or [template]. *)
Definition object_prototype_keys : list jsstring :=
  map lit ["constructor"; "__defineGetter__"; "__defineSetter__";
           "hasOwnProperty"; "__lookupGetter__"; "__lookupSetter__";
           "isPrototypeOf"; "propertyIsEnumerable"; "toString"; "valueOf";
           "__proto__"; "toLocaleString"]%string.

(** The result of [registry[name]] on an object literal. *)
Inductive lookup (A : Type) :=
| Own (a : A)
| Inherited
| Absent.
Arguments Own {A} a.
Arguments Inherited {A}.
Arguments Absent {A}.

(** [registry[name]]: the name is converted to a property key, which
    may throw, and the key is looked up in the object and then in
    [Object.prototype]. *)
Definition registry_get {R : Runtime} {A} (registry : list (jsstring * A))
    (name : value) : raises (lookup A) :=
  match ToString name with
  | inl e => inl e
  | inr key =>
      inr match assoc key registry with
          | Some a => Own a
          | None =>
              if existsb (str_eqb key) object_prototype_keys then Inherited else Absent
          end
  end.

End JS.

(** ** Zod

    The schemas of the servers are [z.object] of [z.string()],
    [z.string().min(n)], [z.number()] and [.optional()] fields.  The model
    follows Zod 3, the version whose [ZodError] has the [errors] property
    the simple server reads: an object schema checks every field, gathers
    the issues of all of them in the order of the shape, and strips the
    keys the shape does not name. *)

Module Zod.
Import JS.

Inductive field :=
| ZString (min : option nat)
| ZNumber
| ZOptional (inner : field).

Definition object_schema := list (jsstring * field).

Inductive issue :=
| invalid_type (expected received : jsstring) (path : list jsstring)
| too_small (minimum : nat) (path : list jsstring).

(** [getParsedType], on the values [JSON.parse] can produce and
    [undefined]. *)
Definition parsed_type (v : value) : jsstring :=
  match v with
  | JUndefined => lit "undefined"
  | JNull => lit "null"
  | JBool _ => lit "boolean"
  | JNum S754_nan => lit "nan"
  | JNum _ => lit "number"
  | JStr _ => lit "string"
  | JArr _ => lit "array"
  | JObj _ => lit "object"
  end.

Definition wrong_type (expected : string) (v : value) (path : list jsstring)
    : list issue + value :=
  inl [invalid_type (lit expected) (parsed_type v) path].

Fixpoint parse_field (f : field) (v : value) (path : list jsstring)
    : list issue + value :=
  match f with
  | ZString min =>
      match v with
      | JStr s =>
          match min with
          | Some n => if (length s <? n)%nat then inl [too_small n path] else inr v
          | None => inr v
          end
      | _ => wrong_type "string" v path
      end
  | ZNumber =>
      match v with
      | JNum S754_nan => wrong_type "number" v path
      | JNum _ => inr v
      | _ => wrong_type "number" v path
      end
  | ZOptional inner =>
      match v with
      | JUndefined => inr JUndefined
      | _ => parse_field inner v path
      end
  end.

(** The fields of the shape, in order: the issues of all of them, and the
    properties of the output, where a key is set when its value is not
    [undefined] or the input has the key. *)
Fixpoint parse_shape (shape : object_schema) (data : value)
    : list issue * list (jsstring * value) :=
  match shape with
  | [] => ([], [])
  | (key, f) :: rest =>
      let '(issues, props) := parse_shape rest data in
      match parse_field f (get_prop data key) [key] with
      | inl here => (here ++ issues, props)
      | inr JUndefined =>
          (issues, if has_prop data key then (key, JUndefined) :: props else props)
      | inr v => (issues, (key, v) :: props)
      end
  end.

(** [schema.safeParse(data)]: the parsed object, or the issues. *)
Definition safeParse (schema : object_schema) (data : value) : list issue + value :=
  match data with
  | JObj _ =>
      match parse_shape schema data with
      | ([], props) => inr (JObj props)
      | (issues, _) => inl issues
      end
  | _ => inl [invalid_type (lit "object") (parsed_type data) []]
  end.

Section Errors.
Context {R : Runtime}.

Definition issue_message (i : issue) : jsstring :=
  match i with
  | invalid_type expected received _ =>
      if str_eqb received (lit "undefined") then lit "Required"
      else lit "Expected " ++ expected ++ lit ", received " ++ received
  | too_small minimum _ =>
      lit "String must contain at least "
        ++ Number_toString (number_of_nat minimum) ++ lit " character(s)"
  end.

(** The issue as the object Zod builds, which [err.errors] lists. *)
Definition issue_value (i : issue) : value :=
  let path_value p := JArr (map JStr p) in
  match i with
  | invalid_type expected received path =>
      JObj [(lit "code", JStr (lit "invalid_type"));
            (lit "expected", JStr expected);
            (lit "received", JStr received);
            (lit "path", path_value path);
            (lit "message", JStr (issue_message i))]
  | too_small minimum path =>
      JObj [(lit "code", JStr (lit "too_small"));
            (lit "minimum", JNum (number_of_nat minimum));
            (lit "type", JStr (lit "string"));
            (lit "inclusive", JBool true);
            (lit "exact", JBool false);
            (lit "message", JStr (issue_message i));
            (lit "path", path_value path)]
  end.

(** [err.errors]. *)
Definition errors (issues : list issue) : value := JArr (map issue_value issues).

End Errors.

End Zod.

(** ** Exceptions *)

Module Exn.
Import JS.

(** What a [throw] carries: [new Error(message)], an error of the engine,
    or a [ZodError]. *)
Inductive exn :=
| Error (message : jsstring)
| Native (e : native_error)
| ZodError (issues : list Zod.issue).

(** A computation that returns or throws. *)
Definition throws (A : Type) : Type := exn + A.
Definition ret {A} (a : A) : throws A := inr a.
Definition throw {A} (e : exn) : throws A := inl e.
Definition bind {A B} (c : throws A) (k : A -> throws B) : throws B :=
  match c with
  | inl e => inl e
  | inr a => k a
  end.

(** An error of the engine, thrown. *)
Definition lift {A} (c : raises A) : throws A :=
  match c with
  | inl e => inl (Native e)
  | inr a => inr a
  end.

(** [schema.parse(data)]: the parsed object, or the [ZodError] thrown. *)
Definition parse (schema : Zod.object_schema) (data : value) : throws value :=
  match Zod.safeParse schema data with
  | inl issues => throw (ZodError issues)
  | inr parsed => ret parsed
  end.

(** [err.message] for any of the three kinds of exception; a [ZodError]
    answers with the indented JSON text of its issues. *)
Definition message {R : Runtime} (e : exn) : jsstring :=
  match e with
  | Error m => m
  | Native e => native_message e
  | ZodError issues => JSON_stringify_indented (Zod.errors issues)
  end.

Module Notations.
Notation "x <- c ;; k" := (bind c (fun x => k))
  (at level 61, c at next level, right associativity).
End Notations.

End Exn.

(** ** Mustache

    [Mustache.render] on a template made of text and of variable tags
    [{{name}}], which is all the templates of the prompts server contain.
    A variable is looked up in the view, converted to a string and
    HTML-escaped; a missing one renders as the empty string. *)

Module Mustache.
Import JS.

Inductive token :=
| Text (s : jsstring)
| Name (s : jsstring).

(** The characters that open a tag of another kind: [#^/>{&=!]. *)
Definition is_sigil (c : code_unit) : bool :=
  existsb (N.eqb c) [35; 94; 47; 62; 123; 38; 61; 33]%N.

Inductive mode :=
| InText
| InTag.

(** One pass over the template; [acc] holds the current text or tag in
    reverse.  [None] when a tag is not closed (Mustache throws) or is not
    a variable tag (outside this model). *)
Fixpoint scan (m : mode) (acc : jsstring) (s : jsstring) : option (list token) :=
  match s with
  | [] =>
      match m with
      | InText => Some [Text (rev acc)]
      | InTag => None
      end
  | c :: rest =>
      match m, rest with
      | InText, d :: rest' =>
          if ((c =? 123) && (d =? 123))%N
          then option_map (cons (Text (rev acc))) (scan InTag [] rest')
          else scan InText (c :: acc) rest
      | InText, [] => scan InText (c :: acc) rest
      | InTag, d :: rest' =>
          if ((c =? 125) && (d =? 125))%N
          then match rev acc with
               | first :: _ =>
                   if is_sigil first then None
                   else option_map (cons (Name (trim (rev acc)))) (scan InText [] rest')
               | [] => option_map (cons (Name [])) (scan InText [] rest')
               end
          else scan InTag (c :: acc) rest
      | InTag, [] => None
      end
  end.

Definition parse (template : jsstring) : option (list token) := scan InText [] template.

(** [escapeHtml]. *)
Definition escape_unit (c : code_unit) : jsstring :=
  (if c =? 38 then lit "&amp;"
   else if c =? 60 then lit "&lt;"
   else if c =? 62 then lit "&gt;"
   else if c =? 34 then lit "&quot;"
   else if c =? 39 then lit "&#39;"
   else if c =? 47 then lit "&#x2F;"
   else if c =? 96 then lit "&#x60;"
   else if c =? 61 then lit "&#x3D;"
   else [c])%N.

Definition escapeHtml (s : jsstring) : jsstring := flat_map escape_unit s.

Section Render.
Context {R : Runtime}.

Definition render_token (view : value) (t : token) : Exn.throws jsstring :=
  match t with
  | Text s => Exn.ret s
  | Name name =>
      let v := get_prop view name in
      if nullish v then Exn.ret []
      else Exn.bind (Exn.lift (ToString v)) (fun text => Exn.ret (escapeHtml text))
  end.

Fixpoint render_tokens (view : value) (tokens : list token) : Exn.throws jsstring :=
  match tokens with
  | [] => Exn.ret []
  | t :: rest =>
      Exn.bind (render_token view t) (fun text =>
      Exn.bind (render_tokens view rest) (fun others =>
      Exn.ret (text ++ others)))
  end.

(** A template that is not made of text and variable tags is outside the
    model; it is given the outcome of a tag that is not closed, an
    [Error].  The templates of the prompts server never come there. *)
Definition render (template : jsstring) (view : value) : Exn.throws jsstring :=
  match parse template with
  | Some tokens => render_tokens view tokens
  | None => Exn.throw (Exn.Error (lit "Unclosed tag"))
  end.

End Render.

End Mustache.

(** ** The simple server ([examples/simple-server/index.js]) *)

Module SimpleServer.
Import JS Zod Exn Exn.Notations.

Record tool := {
  description : jsstring;
  schema : object_schema;
  handler : value -> throws value
}.

(** [async ({ message }) => ({ echoed: message, length: message.length })] *)
Definition echo_handler (args : value) : throws value :=
  if nullish args then
    throw (Native (cannot_destructure args (lit "message") (parameter_text args)))
  else
    let message := get_prop args (lit "message") in
    length <- match message with
              | JStr s => ret (JNum (number_of_nat (length s)))
              | JArr items => ret (JNum (number_of_nat (length items)))
              | JUndefined | JNull => throw (Native (cannot_read message (lit "length")))
              | _ => ret (get_prop message (lit "length"))
              end ;;
    ret (JObj [(lit "echoed", message); (lit "length", length)]).

(** [async ({ a, b }) => ({ sum: a + b })] *)
Definition add_handler {R : Runtime} (args : value) : throws value :=
  if nullish args then
    throw (Native (cannot_destructure args (lit "a") (parameter_text args)))
  else
    let a := get_prop args (lit "a") in
    let b := get_prop args (lit "b") in
    sum <- lift (js_plus a b) ;;
    ret (JObj [(lit "sum", sum)]).

Section Server.
Context {R : Runtime}.

Definition echo : tool :=
  {| description := lit "Echo back a message";
     schema := [(lit "message", ZString None)];
     handler := echo_handler |}.

Definition add : tool :=
  {| description := lit "Add two numbers";
     schema := [(lit "a", ZNumber); (lit "b", ZNumber)];
     handler := add_handler |}.

(** The tool registry. *)
Definition tools : list (jsstring * tool) := [(lit "echo", echo); (lit "add", add)].

(** [send] writes one chunk to the output stream. *)
Definition send (obj : value) : jsstring := JSON_stringify obj ++ [10%N].

(** [JSON.parse('{}')], the placeholder of [inputSchema]. *)
Definition placeholder_schema : throws value :=
  match JSON_parse (lit "{}") with
  | Some v => ret v
  | None => throw (Native (invalid_json (lit "{}")))
  end.

(** [entries.map(([name, t]) => ({ name, description, inputSchema }))] *)
Fixpoint describe (entries : list (jsstring * tool)) : throws (list value) :=
  match entries with
  | [] => ret []
  | (name, t) :: rest =>
      inputSchema <- placeholder_schema ;;
      others <- describe rest ;;
      ret (JObj [(lit "name", JStr name);
                 (lit "description", JStr (description t));
                 (lit "inputSchema", inputSchema)] :: others)
  end.

Definition listCapabilities : throws value :=
  items <- describe tools ;; ret (JArr items).

(** The body of the [try]: the object the request is answered with, or
    what is thrown. *)
Definition dispatch (id method params : value) : throws value :=
  if is_string method (lit "capability.list") then
    capabilities <- listCapabilities ;;
    ret (result_envelope id (JObj [(lit "tools", capabilities)]))
  else if is_string method (lit "tool.call") then
    let p := or_empty_object params in
    let name := get_prop p (lit "name") in
    let args := get_prop p (lit "arguments") in
    found <- lift (registry_get tools name) ;;
    match found with
    | Absent =>
        text <- lift (ToString name) ;;
        throw (Error (lit "Unknown tool: " ++ text))
    | Inherited => throw (Native (cannot_read JUndefined (lit "parse")))
    | Own tool =>
        parsed <- parse (schema tool) args ;;
        result <- handler tool parsed ;;
        ret (result_envelope id result)
    end
  else throw (Error (lit "Method not found")).

(** The [catch]. *)
Definition report (id : value) (err : exn) : value :=
  match err with
  | ZodError issues =>
      error_envelope id
        (JObj [(lit "code", JNum (number_of_Z (-32602)));
               (lit "message", JStr (lit "Invalid params"));
               (lit "data", errors issues)])
  | _ =>
      error_envelope id
        (JObj [(lit "code", JNum (number_of_Z (-32000)));
               (lit "message", JStr (message err))])
  end.

(** The envelope [handleRequest] passes to [send]; destructuring the
    message is outside the [try], so that a [null] message rejects the
    promise of the [async] function and nothing is sent. *)
Definition respond (message : value) : throws value :=
  if nullish message then
    throw (Native (cannot_destructure message (lit "id") (lit "message")))
  else
    let id := get_prop message (lit "id") in
    let method := get_prop message (lit "method") in
    let params := get_prop message (lit "params") in
    match dispatch id method params with
    | inr envelope => ret envelope
    | inl err => ret (report id err)
    end.

(** What [handleRequest] writes. *)
Definition handleRequest (message : value) : list jsstring :=
  match respond message with
  | inr envelope => [send envelope]
  | inl _ => []
  end.

Definition parse_error_envelope (id : value) : value :=
  error_envelope id
    (JObj [(lit "code", JNum (number_of_Z (-32700)));
           (lit "message", JStr (lit "Parse error"))]).

(** The listener of the [line] event: the new value of [nextId] and what
    the line makes the server write. *)
Definition on_line (nextId : number) (line : jsstring) : number * list jsstring :=
  match trim line with
  | [] => (nextId, [])
  | _ =>
      match JSON_parse line with
      | None => (js_add nextId (number_of_Z 1), [send (parse_error_envelope (JNum nextId))])
      | Some msg => (nextId, handleRequest msg)
      end
  end.

Definition initial_nextId : number := number_of_Z 1.

Definition banner : jsstring :=
  send (JObj [(lit "notice",
               JStr (lit "MCP simple demo server ready. Send JSON-RPC lines."))]).

(** The promise of [handleRequest] is rejected: the listener drops the
    promise, so that nobody handles the rejection. *)
Definition rejected (message : value) : bool :=
  match respond message with
  | inl _ => true
  | inr _ => false
  end.

(** The line ends the process: a rejected promise that nobody handles
    raises an uncaught exception in Node (the default mode of
    [--unhandled-rejections]), and the process exits. *)
Definition ends_process (line : jsstring) : bool :=
  match trim line with
  | [] => false
  | _ =>
      match JSON_parse line with
      | None => false
      | Some msg => rejected msg
      end
  end.

(** The writes each line of the input causes, line by line, for lines
    that reach the listener one per turn of the event loop: the process
    is gone after a line that ends it, and the lines behind that one are
    not read.  The answer to a [tool.call] is written after an [await], in
    the turn of its line. *)
Fixpoint run (nextId : number) (lines : list jsstring) : list (list jsstring) :=
  match lines with
  | [] => []
  | line :: rest =>
      let '(nextId', written) := on_line nextId line in
      written :: (if ends_process line then [] else run nextId' rest)
  end.

End Server.

End SimpleServer.

(** ** The prompts server ([examples/prompts-server/index.js]) *)

Module PromptsServer.
Import JS Zod Exn Exn.Notations.

Record tool := {
  description : jsstring;
  schema : object_schema;
  handler : value -> throws value
}.

Record prompt := {
  prompt_description : jsstring;
  inputSchema : object_schema;
  template : jsstring
}.

(** [async ({ content }) =>
      ({ summary: content.split(/\s+/).slice(0, 12).join(' ') + '...' })] *)
Definition markdown_summary_handler (args : value) : throws value :=
  if nullish args then
    throw (Native (cannot_destructure args (lit "content") (parameter_text args)))
  else
    let content := get_prop args (lit "content") in
    match content with
    | JStr s =>
        ret (JObj [(lit "summary",
                    JStr (join (lit " ") (firstn 12 (split_whitespace s)) ++ lit "..."))])
    | JUndefined | JNull => throw (Native (cannot_read content (lit "split")))
    | _ => throw (Native (not_a_function (lit "content.split")))
    end.

Definition markdown_summary : tool :=
  {| description := lit "Summarize a block of markdown text (simulated)";
     schema := [(lit "content", ZString (Some 1))];
     handler := markdown_summary_handler |}.

Definition tools : list (jsstring * tool) := [(lit "markdown_summary", markdown_summary)].

Definition newline : jsstring := [10%N].

Definition qa_basic : prompt :=
  {| prompt_description := lit "Simple Q&A wrapper";
     inputSchema := [(lit "question", ZString None);
                     (lit "context", ZOptional (ZString None))];
     template :=
       lit "You are a helpful system. Answer the user question." ++ newline
       ++ lit "Context: {{context}}" ++ newline
       ++ lit "Question: {{question}}" ++ newline
       ++ lit "Answer:" |}.

Definition refactor_function : prompt :=
  {| prompt_description := lit "Refactor function prompt";
     inputSchema := [(lit "code", ZString None); (lit "goal", ZString None)];
     template :=
       lit "Refactor the following code to achieve: {{goal}}" ++ newline ++ newline
       ++ lit "Code:" ++ newline
       ++ lit "{{code}}" ++ newline ++ newline
       ++ lit "Refactored:" |}.

Definition promptTemplates : list (jsstring * prompt) :=
  [(lit "qa/basic", qa_basic); (lit "refactor/function", refactor_function)].

Definition named (description_of : jsstring) (name : jsstring) : value :=
  JObj [(lit "name", JStr name); (lit "description", JStr description_of)].

Definition list_tools : list value :=
  map (fun '(name, t) => named (description t) name) tools.

Definition list_prompts : list value :=
  map (fun '(name, p) => named (prompt_description p) name) promptTemplates.

Definition listCapabilities : value :=
  JObj [(lit "tools", JArr list_tools); (lit "prompts", JArr list_prompts)].

Section Server.
Context {R : Runtime}.

Definition send (obj : value) : jsstring := JSON_stringify obj ++ [10%N].

(** The body of the [try], a [switch] on [method]. *)
Definition dispatch (id method params : value) : throws value :=
  if is_string method (lit "capability.list") then
    ret (result_envelope id listCapabilities)
  else if is_string method (lit "tool.call") then
    let p := or_empty_object params in
    let name := get_prop p (lit "name") in
    let args := get_prop p (lit "arguments") in
    found <- lift (registry_get tools name) ;;
    match found with
    | Absent =>
        text <- lift (ToString name) ;;
        throw (Error (lit "Unknown tool: " ++ text))
    | Inherited => throw (Native (cannot_read JUndefined (lit "parse")))
    | Own tool =>
        parsed <- parse (schema tool) args ;;
        result <- handler tool parsed ;;
        ret (result_envelope id result)
    end
  else if is_string method (lit "prompts.list") then
    ret (result_envelope id (JArr list_prompts))
  else if is_string method (lit "prompts.build") then
    let q := or_empty_object params in
    let name := get_prop q (lit "name") in
    let variables := get_prop q (lit "variables") in
    found <- lift (registry_get promptTemplates name) ;;
    match found with
    | Absent =>
        text <- lift (ToString name) ;;
        throw (Error (lit "Unknown prompt: " ++ text))
    | Inherited => throw (Native (cannot_read JUndefined (lit "parse")))
    | Own p =>
        parsed <- parse (inputSchema p) (or_empty_object variables) ;;
        rendered <- Mustache.render (template p) parsed ;;
        ret (result_envelope id (JObj [(lit "prompt", JStr rendered)]))
    end
  else throw (Error (lit "Method not found")).

(** The [catch]: every exception is reported with the code -32000. *)
Definition report (id : value) (e : exn) : value :=
  error_envelope id
    (JObj [(lit "code", JNum (number_of_Z (-32000)));
           (lit "message", JStr (message e))]).

(** The envelope [handleRequest] passes to [send]; as in the simple
    server the message is destructured before the [try]. *)
Definition respond (msg : value) : throws value :=
  if nullish msg then
    throw (Native (cannot_destructure msg (lit "id") (lit "msg")))
  else
    let id := get_prop msg (lit "id") in
    let method := get_prop msg (lit "method") in
    let params := get_prop msg (lit "params") in
    match dispatch id method params with
    | inr envelope => ret envelope
    | inl e => ret (report id e)
    end.

Definition handleRequest (msg : value) : list jsstring :=
  match respond msg with
  | inr envelope => [send envelope]
  | inl _ => []
  end.

Definition parse_error_envelope : value :=
  error_envelope JNull
    (JObj [(lit "code", JNum (number_of_Z (-32700)));
           (lit "message", JStr (lit "Parse error"))]).

(** The listener of the [line] event.  [handleRequest] is [async]: it
    never throws into the [try] of the listener, which therefore catches
    the [SyntaxError] of [JSON.parse] only. *)
Definition on_line (line : jsstring) : list jsstring :=
  match trim line with
  | [] => []
  | _ =>
      match JSON_parse line with
      | None => [send parse_error_envelope]
      | Some msg => handleRequest msg
      end
  end.

Definition banner : jsstring :=
  send (JObj [(lit "notice", JStr (lit "Prompts server ready"))]).

(** As in the simple server: a rejected promise ends the process. *)
Definition rejected (msg : value) : bool :=
  match respond msg with
  | inl _ => true
  | inr _ => false
  end.

Definition ends_process (line : jsstring) : bool :=
  match trim line with
  | [] => false
  | _ =>
      match JSON_parse line with
      | None => false
      | Some msg => rejected msg
      end
  end.

(** The writes each line of the input causes, line by line, up to the
    line that ends the process, with the provisos of the simple server's
    [run]. *)
Fixpoint run (lines : list jsstring) : list (list jsstring) :=
  match lines with
  | [] => []
  | line :: rest => on_line line :: (if ends_process line then [] else run rest)
  end.

End Server.

End PromptsServer.

(** ** An executable runtime

    [JSON.parse], the printing of numbers and the messages of the engine,
    written out so that the servers can be run on the text of a line. *)

Module Node.
Import JS.

(** The binary64 value nearest to [m * 10 ^ e], ties to even. *)
Definition decimal_to_number (m e : Z) : number :=
  match m with
  | Zpos p =>
      if (0 <=? e)%Z then binary_normalize prec emax (Zpos p * 10 ^ e) 0 false
      else
        let den := (10 ^ (- e))%Z in
        let k := Z.max 0 (64 + Z.log2 den - Z.log2 m) in
        let num := (m * 2 ^ k)%Z in
        let r := (num mod den)%Z in
        let loc := if (r =? 0)%Z then loc_Exact else loc_Inexact (2 * r ?= den)%Z in
        binary_round_aux prec emax false (num / den) (- k) loc
  | _ => S754_zero false
  end.

Definition signed (negative : bool) (n : number) : number :=
  if negative then SFopp n else n.

(** *** [JSON.parse] *)

Definition is_json_space (c : code_unit) : bool :=
  ((c =? 32) || (c =? 9) || (c =? 10) || (c =? 13))%N.

Fixpoint skip_space (s : jsstring) : jsstring :=
  match s with
  | c :: rest => if is_json_space c then skip_space rest else s
  | [] => []
  end.

Definition is_digit (c : code_unit) : bool := ((48 <=? c) && (c <=? 57))%N.

Definition hex_value (c : code_unit) : option N :=
  (if is_digit c then Some (c - 48)
   else if (97 <=? c) && (c <=? 102) then Some (c - 87)
   else if (65 <=? c) && (c <=? 70) then Some (c - 55)
   else None)%N.

Definition escape_value (c : code_unit) : option code_unit :=
  (if (c =? 34) || (c =? 92) || (c =? 47) then Some c
   else if c =? 98 then Some 8
   else if c =? 102 then Some 12
   else if c =? 110 then Some 10
   else if c =? 114 then Some 13
   else if c =? 116 then Some 9
   else None)%N.

(** The characters of a string after its opening quote; [acc] holds the
    string read so far in reverse. *)
Fixpoint parse_string (acc : jsstring) (s : jsstring) : option (jsstring * jsstring) :=
  match s with
  | [] => None
  | c :: rest =>
      if (c =? 34)%N then Some (rev acc, rest)
      else if (c =? 92)%N then
        match rest with
        | e :: rest1 =>
            if (e =? 117)%N then
              match rest1 with
              | h3 :: h2 :: h1 :: h0 :: rest2 =>
                  match hex_value h3, hex_value h2, hex_value h1, hex_value h0 with
                  | Some a, Some b, Some c', Some d =>
                      parse_string ((a * 4096 + b * 256 + c' * 16 + d)%N :: acc) rest2
                  | _, _, _, _ => None
                  end
              | _ => None
              end
            else
              match escape_value e with
              | Some u => parse_string (u :: acc) rest1
              | None => None
              end
        | [] => None
        end
      else if (c <? 32)%N then None
      else parse_string (c :: acc) rest
  end.

Fixpoint take_digits (s : jsstring) : list Z * jsstring :=
  match s with
  | c :: rest =>
      if is_digit c
      then let '(ds, tail) := take_digits rest in (Z.of_N (c - 48) :: ds, tail)
      else ([], s)
  | [] => ([], [])
  end.

Definition digits_value (ds : list Z) : Z :=
  fold_left (fun acc d => acc * 10 + d)%Z ds 0%Z.

Definition parse_number (s : jsstring) : option (number * jsstring) :=
  let '(negative, s1) :=
    match s with
    | c :: rest => if (c =? 45)%N then (true, rest) else (false, s)
    | [] => (false, s)
    end in
  let '(int_digits, s2) := take_digits s1 in
  match int_digits with
  | [] => None
  | 0%Z :: _ :: _ => None
  | _ =>
      let fraction :=
        match s2 with
        | c :: rest =>
            if (c =? 46)%N then
              match take_digits rest with
              | ([], _) => None
              | (ds, tail) => Some (ds, tail)
              end
            else Some ([], s2)
        | [] => Some ([], s2)
        end in
      match fraction with
      | None => None
      | Some (frac_digits, s3) =>
          let exponent :=
            match s3 with
            | c :: rest =>
                if ((c =? 101) || (c =? 69))%N then
                  let '(minus, rest') :=
                    match rest with
                    | sign :: after =>
                        if (sign =? 45)%N then (true, after)
                        else if (sign =? 43)%N then (false, after)
                        else (false, rest)
                    | [] => (false, rest)
                    end in
                  match take_digits rest' with
                  | ([], _) => None
                  | (ds, tail) =>
                      Some ((if minus then - digits_value ds else digits_value ds)%Z, tail)
                  end
                else Some (0%Z, s3)
            | [] => Some (0%Z, s3)
            end in
          match exponent with
          | None => None
          | Some (e, s4) =>
              Some (signed negative
                      (decimal_to_number (digits_value (int_digits ++ frac_digits))
                         (e - Z.of_nat (length frac_digits))),
                    s4)
          end
      end
  end.

Fixpoint expect (word : jsstring) (s : jsstring) : option jsstring :=
  match word, s with
  | [], _ => Some s
  | w :: word', c :: rest => if (w =? c)%N then expect word' rest else None
  | _ :: _, [] => None
  end.

(** A property defined twice keeps its place and takes the later value. *)
Fixpoint define_property (k : jsstring) (v : value) (props : list (jsstring * value))
    : list (jsstring * value) :=
  match props with
  | [] => [(k, v)]
  | (k', v') :: rest =>
      if str_eqb k k' then (k, v) :: rest else (k', v') :: define_property k v rest
  end.

(** An array index: the canonical decimal text of an integer below
    [2^32 - 1]. *)
Definition array_index (k : jsstring) : option Z :=
  match take_digits k with
  | ([], _) => None
  | (0%Z :: _ :: _, _) => None
  | (ds, []) => if (digits_value ds <? 4294967295)%Z then Some (digits_value ds) else None
  | (_, _ :: _) => None
  end.

Fixpoint insert_index (i : Z) (entry : jsstring * value)
    (sorted : list (Z * (jsstring * value))) : list (Z * (jsstring * value)) :=
  match sorted with
  | [] => [(i, entry)]
  | (j, other) :: rest =>
      if (i <? j)%Z then (i, entry) :: sorted else (j, other) :: insert_index i entry rest
  end.

(** Property order: the array indices in ascending order, then the other
    keys in the order of their creation. *)
Definition property_order (props : list (jsstring * value)) : list (jsstring * value) :=
  let indexed :=
    fold_left (fun sorted entry =>
                 match array_index (fst entry) with
                 | Some i => insert_index i entry sorted
                 | None => sorted
                 end) props [] in
  map snd indexed
    ++ filter (fun entry => match array_index (fst entry) with
                            | Some _ => false
                            | None => true
                            end) props.

Fixpoint parse_value (fuel : nat) (s : jsstring) {struct fuel} : option (value * jsstring) :=
  match fuel with
  | O => None
  | S fuel' =>
      match skip_space s with
      | [] => None
      | c :: rest =>
          if (c =? 123)%N then
            match skip_space rest with
            | d :: rest' =>
                if (d =? 125)%N then Some (JObj [], rest')
                else parse_members fuel' [] rest
            | [] => None
            end
          else if (c =? 91)%N then
            match skip_space rest with
            | d :: rest' =>
                if (d =? 93)%N then Some (JArr [], rest')
                else parse_elements fuel' [] rest
            | [] => None
            end
          else if (c =? 34)%N then
            match parse_string [] rest with
            | Some (text, tail) => Some (JStr text, tail)
            | None => None
            end
          else if (c =? 116)%N then option_map (pair (JBool true)) (expect (lit "rue") rest)
          else if (c =? 102)%N then option_map (pair (JBool false)) (expect (lit "alse") rest)
          else if (c =? 110)%N then option_map (pair JNull) (expect (lit "ull") rest)
          else
            match parse_number (c :: rest) with
            | Some (n, tail) => Some (JNum n, tail)
            | None => None
            end
      end
  end
with parse_elements (fuel : nat) (acc : list value) (s : jsstring) {struct fuel}
    : option (value * jsstring) :=
  match fuel with
  | O => None
  | S fuel' =>
      match parse_value fuel' s with
      | Some (v, tail) =>
          match skip_space tail with
          | c :: rest =>
              if (c =? 44)%N then parse_elements fuel' (v :: acc) rest
              else if (c =? 93)%N then Some (JArr (rev (v :: acc)), rest)
              else None
          | [] => None
          end
      | None => None
      end
  end
with parse_members (fuel : nat) (acc : list (jsstring * value)) (s : jsstring) {struct fuel}
    : option (value * jsstring) :=
  match fuel with
  | O => None
  | S fuel' =>
      match skip_space s with
      | q :: after_quote =>
          if (q =? 34)%N then
            match parse_string [] after_quote with
            | Some (key, tail) =>
                match skip_space tail with
                | colon :: after_colon =>
                    if (colon =? 58)%N then
                      match parse_value fuel' after_colon with
                      | Some (v, tail') =>
                          let acc' := define_property key v acc in
                          match skip_space tail' with
                          | c :: rest =>
                              if (c =? 44)%N then parse_members fuel' acc' rest
                              else if (c =? 125)%N then Some (JObj (property_order acc'), rest)
                              else None
                          | [] => None
                          end
                      | None => None
                      end
                    else None
                | [] => None
                end
            | None => None
            end
          else None
      | [] => None
      end
  end.

Definition parse (text : jsstring) : option value :=
  match parse_value (2 * length text + 2) text with
  | Some (v, tail) => match skip_space tail with [] => Some v | _ => None end
  | None => None
  end.

(** *** Number::toString

    The shortest decimal that reads back as the number, the nearest one
    among those, laid out as ECMAScript prescribes. *)

Definition number_eqb (x y : number) : bool :=
  match x, y with
  | S754_zero a, S754_zero b => Bool.eqb a b
  | S754_infinity a, S754_infinity b => Bool.eqb a b
  | S754_nan, S754_nan => true
  | S754_finite a m e, S754_finite b m' e' => Bool.eqb a b && Pos.eqb m m' && Z.eqb e e'
  | _, _ => false
  end.

Fixpoint decimal_digits_aux (fuel : nat) (n : Z) (acc : jsstring) : jsstring :=
  match fuel with
  | O => acc
  | S fuel' =>
      let acc' := Z.to_N (48 + n mod 10) :: acc in
      if (n <? 10)%Z then acc' else decimal_digits_aux fuel' (n / 10) acc'
  end.

(** The decimal digits of a natural number. *)
Definition decimal_digits (n : Z) : jsstring :=
  decimal_digits_aux (S (Z.to_nat (Z.log2 n))) n [].

(** [x * 10 ^ j] for the fraction [x = num / den], as a fraction. *)
Definition scale10 (num den j : Z) : Z * Z :=
  if (0 <=? j)%Z then (num * 10 ^ j, den)%Z else (num, den * 10 ^ (- j))%Z.

(** The least [n] from [start] on with [num / den < 10 ^ n]. *)
Fixpoint magnitude (fuel : nat) (num den n : Z) : Z :=
  match fuel with
  | O => n
  | S fuel' =>
      let '(a, b) := scale10 num den (- n) in
      if (a <? b)%Z then n else magnitude fuel' num den (n + 1)
  end.

(** Digits [s] and exponent [e] with [s * 10 ^ e] reading back as [x],
    for the least number [k] of digits that allows it. *)
Fixpoint shortest (fuel : nat) (x : number) (num den n k : Z) : Z * Z :=
  let e := (n - k)%Z in
  let '(a, b) := scale10 num den (- e) in
  let low := (a / b)%Z in
  let high := (low + 1)%Z in
  let reads s := number_eqb (decimal_to_number s e) x in
  match fuel with
  | O => (low, e)
  | S fuel' =>
      match reads low, reads high with
      | true, true => if (2 * (a - low * b) <=? b)%Z then (low, e) else (high, e)
      | true, false => (low, e)
      | false, true => (high, e)
      | false, false => shortest fuel' x num den n (k + 1)
      end
  end.

Fixpoint strip_zeros (fuel : nat) (s e : Z) : Z * Z :=
  match fuel with
  | O => (s, e)
  | S fuel' =>
      if ((s mod 10 =? 0) && (0 <? s))%Z then strip_zeros fuel' (s / 10) (e + 1) else (s, e)
  end.

Definition zeros (n : Z) : jsstring := repeat 48%N (Z.to_nat n).

(** The layout of the digits [ds] of a number with [n] digits before the
    decimal point. *)
Definition layout (ds : jsstring) (n : Z) : jsstring :=
  let k := Z.of_nat (length ds) in
  if ((k <=? n) && (n <=? 21))%Z then ds ++ zeros (n - k)
  else if ((0 <? n) && (n <=? 21))%Z then
    firstn (Z.to_nat n) ds ++ lit "." ++ skipn (Z.to_nat n) ds
  else if ((-6 <? n) && (n <=? 0))%Z then lit "0." ++ zeros (- n) ++ ds
  else
    let exponent :=
      (if (0 <=? n - 1)%Z then lit "+" else lit "-") ++ decimal_digits (Z.abs (n - 1)) in
    match ds with
    | [d] => [d] ++ lit "e" ++ exponent
    | d :: more => [d] ++ lit "." ++ more ++ lit "e" ++ exponent
    | [] => []
    end.

Definition positive_to_string (m : positive) (e : Z) : jsstring :=
  let x := binary_normalize prec emax (Zpos m) e false in
  let '(num, den) :=
    if (0 <=? e)%Z then (Zpos m * 2 ^ e, 1)%Z else (Zpos m, 2 ^ (- e))%Z in
  let start := ((Z.log2 num - Z.log2 den) * 30103 / 100000 - 3)%Z in
  let n := magnitude 10 num den start in
  let '(s, e10) := shortest 17 x num den n 1 in
  let '(s', e10') := strip_zeros 20 s e10 in
  let ds := decimal_digits s' in
  layout ds (e10' + Z.of_nat (length ds)).

Definition toString (x : number) : jsstring :=
  match x with
  | S754_nan => lit "NaN"
  | S754_zero _ => lit "0"
  | S754_infinity false => lit "Infinity"
  | S754_infinity true => lit "-Infinity"
  | S754_finite false m e => positive_to_string m e
  | S754_finite true m e => lit "-" ++ positive_to_string m e
  end.

(** *** The messages of V8 *)

Definition quoted (s : jsstring) : jsstring := lit "'" ++ s ++ lit "'".

Definition message_of (e : native_error) : jsstring :=
  match e with
  | cannot_destructure v property source =>
      lit "Cannot destructure property " ++ quoted property ++ lit " of "
        ++ quoted source ++ lit " as it is "
        ++ (match v with JNull => lit "null" | _ => lit "undefined" end) ++ lit "."
  | cannot_read v property =>
      lit "Cannot read properties of "
        ++ (match v with JNull => lit "null" | _ => lit "undefined" end)
        ++ lit " (reading " ++ quoted property ++ lit ")"
  | cannot_convert _ => lit "Cannot convert object to primitive value"
  | not_a_function callee => callee ++ lit " is not a function"
  | invalid_json _ => lit "Unexpected end of JSON input"
  end.

Lemma parse_empty_object : parse (lit "{}") = Some (JObj []).
Proof. reflexivity. Qed.

#[export] Instance runtime : Runtime := {|
  JSON_parse := parse;
  JSON_parse_empty_object := parse_empty_object;
  Number_toString := toString;
  native_message := message_of
|}.

End Node.


(** ** Notions the statements use *)

Module Spec.
Import JS Zod.

(** A JSON text written with apostrophes in place of the double quotes. *)
Definition json_text (s : string) : jsstring :=
  map (fun c => if (c =? 39)%N then 34%N else c) (lit s).


(** The members of the JSON object [JSON.stringify] writes for an
    object: its properties, in their order, without those whose value is
    [undefined]. *)
Definition written (v : value) : list (jsstring * value) :=
  match v with
  | JObj props =>
      filter (fun entry => match snd entry with JUndefined => false | _ => true end) props
  | _ => []
  end.

Definition written_keys (v : value) : list jsstring := map fst (written v).

(** The text of one member, [key:value]. *)
Definition member_text {R : Runtime} (entry : jsstring * value) : jsstring :=
  quote (fst entry) ++ lit ":" ++ JSON_stringify (snd entry).

(** Exactly one of [result] and [error] is written: among the keys of
    the members of the text, one is [result] or [error], and no second
    one is. *)
Definition one_of_result_error (envelope : value) : Prop :=
  length (filter (fun k => str_eqb k (lit "result") || str_eqb k (lit "error"))
            (written_keys envelope)) = 1.




(** A line is blank when it is empty or made of white space only. *)
Definition blank (line : jsstring) : bool := forallb is_whitespace line.

Fixpoint starts_with (prefix s : jsstring) : bool :=
  match prefix, s with
  | [], _ => true
  | p :: prefix', c :: s' => (p =? c)%N && starts_with prefix' s'
  | _ :: _, [] => false
  end.

(** The number of places of [s] where [needle] occurs. *)
Fixpoint occurrences (needle s : jsstring) : nat :=
  (if starts_with needle s then 1 else 0)
  + match s with
    | [] => 0
    | _ :: s' => occurrences needle s'
    end.

(** The envelope answers the request [id] with a result, or with an
    error. *)
Definition result_for (id envelope : value) : Prop :=
  exists result, result <> JUndefined /\ envelope = result_envelope id result.

Definition error_for (id envelope : value) : Prop :=
  exists props, envelope = error_envelope id (JObj props).

(** The object the listener passes to [send] for a line: the envelope
    [handleRequest] answers the message of the line with, or the one of
    the parse error. *)
Definition simple_sends {R : Runtime} (nextId : number) (line : jsstring)
    (envelope : value) : Prop :=
  blank line = false
  /\ ((exists message,
         JSON_parse line = Some message /\ SimpleServer.respond message = inr envelope)
      \/ (JSON_parse line = None
          /\ envelope = SimpleServer.parse_error_envelope (JNum nextId))).

Definition prompts_sends {R : Runtime} (line : jsstring) (envelope : value) : Prop :=
  blank line = false
  /\ ((exists message,
         JSON_parse line = Some message /\ PromptsServer.respond message = inr envelope)
      \/ (JSON_parse line = None /\ envelope = PromptsServer.parse_error_envelope)).

(** The [code] of the error of an envelope. *)
Definition error_code (envelope : value) : value :=
  get_prop (get_prop envelope (lit "error")) (lit "code").

Definition error_message (envelope : value) : value :=
  get_prop (get_prop envelope (lit "error")) (lit "message").

Definition error_data (envelope : value) : value :=
  get_prop (get_prop envelope (lit "error")) (lit "data").

(** The envelopes a validation failure is answered with. *)
Definition invalid_params_envelope {R : Runtime} (id : value) (issues : list issue) : value :=
  error_envelope id
    (JObj [(lit "code", JNum (number_of_Z (-32602)));
           (lit "message", JStr (lit "Invalid params"));
           (lit "data", errors issues)]).

Definition zod_message_envelope {R : Runtime} (id : value) (issues : list issue) : value :=
  error_envelope id
    (JObj [(lit "code", JNum (number_of_Z (-32000)));
           (lit "message", JStr (JSON_stringify_indented (errors issues)))]).

End Spec.

(** ** Requests the examples use *)

Module Requests.
Import JS.

(** The request of the scenario, as [JSON.parse] reads it. *)
Definition add_request : value :=
  JObj [(lit "jsonrpc", JStr (lit "2.0"));
        (lit "id", JNum (number_of_Z 2));
        (lit "method", JStr (lit "tool.call"));
        (lit "params",
         JObj [(lit "name", JStr (lit "add"));
               (lit "arguments",
                JObj [(lit "a", JNum (number_of_Z 2)); (lit "b", JNum (number_of_Z 5))])])].


(** A [capability.list] request. *)
Definition list_request (id : Z) : value :=
  JObj [(lit "jsonrpc", JStr (lit "2.0"));
        (lit "id", JNum (number_of_Z id));
        (lit "method", JStr (lit "capability.list"))].

(** A call of [echo]. *)
Definition echo_request : value :=
  JObj [(lit "jsonrpc", JStr (lit "2.0"));
        (lit "id", JNum (number_of_Z 1));
        (lit "method", JStr (lit "tool.call"));
        (lit "params",
         JObj [(lit "name", JStr (lit "echo"));
               (lit "arguments", JObj [(lit "message", JStr (lit "hello"))])])].

(** A [tool.call] and a [prompts.build] with the [id] 3. *)
Definition call_request (name : string) (arguments : value) : value :=
  JObj [(lit "jsonrpc", JStr (lit "2.0"));
        (lit "id", JNum (number_of_Z 3));
        (lit "method", JStr (lit "tool.call"));
        (lit "params", JObj [(lit "name", JStr (lit name)); (lit "arguments", arguments)])].

Definition build_request (name : string) (variables : value) : value :=
  JObj [(lit "jsonrpc", JStr (lit "2.0"));
        (lit "id", JNum (number_of_Z 3));
        (lit "method", JStr (lit "prompts.build"));
        (lit "params", JObj [(lit "name", JStr (lit name)); (lit "variables", variables)])].

End Requests.

(** ** Notions the further properties use *)

Module Behaviour.
Import JS Zod Exn.

(** The envelope an exception other than a [ZodError] is reported with. *)
Definition failure_envelope (id : value) (text : jsstring) : value :=
  error_envelope id
    (JObj [(lit "code", JNum (number_of_Z (-32000))); (lit "message", JStr text)]).

(** A request of the method [method] with the parameters [params]. *)
Definition request (id : value) (method : string) (params : value) : value :=
  JObj [(lit "jsonrpc", JStr (lit "2.0")); (lit "id", id);
        (lit "method", JStr (lit method)); (lit "params", params)].

(** The parameters of a [tool.call]. *)
Definition call (name : string) (arguments : value) : value :=
  JObj [(lit "name", JStr (lit name)); (lit "arguments", arguments)].

(** The parameters of a [prompts.build]. *)
Definition build (name : string) (variables : value) : value :=
  JObj [(lit "name", JStr (lit name)); (lit "variables", variables)].




(** A chunk that is one line: a text without a line feed, and the line
    feed that ends it. *)
Definition single_line (chunk : jsstring) : Prop :=
  exists body, chunk = body ++ [10%N] /\ ~ In 10%N body.

(** A word: a string that is not empty and holds no white space. *)
Definition is_word (w : jsstring) : bool :=
  match w with
  | [] => false
  | _ => forallb (fun c => negb (is_whitespace c)) w
  end.


(** The keys of the members an envelope for the request [id] writes: no
    [id] when the request has none. *)
Definition envelope_keys (id : value) (outcome : string) : list jsstring :=
  lit "jsonrpc"
    :: match id with JUndefined => [] | _ => [lit "id"] end ++ [lit outcome].

(** The error codes each server uses. *)
Definition simple_codes : list value :=
  map (fun z => JNum (number_of_Z z)) [-32700; -32602; -32000]%Z.

Definition prompts_codes : list value :=
  map (fun z => JNum (number_of_Z z)) [-32700; -32000]%Z.

End Behaviour.

(** ** Properties of the model *)

Import JS Spec Requests Behaviour.

Lemma str_eqb_refl (s : jsstring) : str_eqb s s = true.
Proof.
  induction s as [|c s IH]; simpl; [reflexivity|].
  now rewrite N.eqb_refl.
Qed.

Lemma str_eqb_eq (a b : jsstring) : str_eqb a b = true <-> a = b.
Proof.
  split.
  - revert b; induction a as [|x a IH]; intros [|y b] H; simpl in H;
      try discriminate; [reflexivity|].
    apply andb_true_iff in H as [Hxy Hab].
    apply N.eqb_eq in Hxy. f_equal; auto.
  - intros ->. apply str_eqb_refl.
Qed.

Lemma is_string_eq (v : value) (s : jsstring) :
  is_string v s = true <-> v = JStr s.
Proof.
  destruct v; simpl; try (split; [discriminate|intros H; discriminate H]).
  rewrite str_eqb_eq. split; [now intros ->|now intros [= ->]].
Qed.

(** *** Trimming *)

Lemma trim_start_blank (s : jsstring) : blank s = true -> trim_start s = [].
Proof.
  induction s as [|c s IH]; simpl; [reflexivity|].
  intros H. apply andb_true_iff in H as [Hc Hs].
  now rewrite Hc; apply IH.
Qed.

Lemma trim_blank (line : jsstring) : blank line = true -> trim line = [].
Proof.
  intros H. unfold trim. now rewrite (trim_start_blank _ H).
Qed.

Lemma trim_start_nil_blank (s : jsstring) : trim_start s = [] -> blank s = true.
Proof.
  induction s as [|c s IH]; simpl; [reflexivity|].
  destruct (is_whitespace c); [auto|discriminate].
Qed.

Lemma trim_start_not_white (s : jsstring) (c : code_unit) (rest : jsstring) :
  trim_start s = c :: rest -> is_whitespace c = false.
Proof.
  induction s as [|d s IH]; simpl; [discriminate|].
  destruct (is_whitespace d) eqn:Hd; [exact IH|].
  now intros [= <- _].
Qed.

(** A line that [trim] empties is blank. *)
Lemma trim_nil_blank (line : jsstring) : trim line = [] -> blank line = true.
Proof.
  unfold trim, trim_end. intros H.
  destruct (trim_start line) as [|c rest] eqn:Hs.
  - now apply trim_start_nil_blank.
  - exfalso.
    apply trim_start_not_white in Hs as Hc.
    assert (Hrev : trim_start (rev (c :: rest)) = []).
    { apply (f_equal (@rev _)) in H. now rewrite rev_involutive in H. }
    clear H Hs. revert c Hc Hrev.
    induction rest as [|d rest IH] using rev_ind; intros c Hc Hrev.
    + simpl in Hrev. now rewrite Hc in Hrev.
    + change (c :: rest ++ [d]) with ((c :: rest) ++ [d]) in Hrev.
      rewrite rev_app_distr in Hrev. simpl in Hrev.
      destruct (is_whitespace d) eqn:Hd; [|discriminate].
      now apply (IH c).
Qed.

(** *** Zod *)

Import Zod Exn Exn.Notations.

(** [schema.parse] on a value the schema accepts, and on one it
    rejects. *)
Lemma parse_accepts (schema : object_schema) (data parsed : value) :
  safeParse schema data = inr parsed -> parse schema data = inr parsed.
Proof. unfold parse. now intros ->. Qed.

Lemma parse_rejects (schema : object_schema) (data : value) (issues : list issue) :
  safeParse schema data = inl issues -> parse schema data = inl (ZodError issues).
Proof. unfold parse. now intros ->. Qed.

(** What [z.object({ key: z.string() })] accepts, with or without
    [.min(n)]. *)
Lemma parse_one_string (key : jsstring) (min : option nat) (data parsed : value) :
  safeParse [(key, ZString min)] data = inr parsed ->
  exists s, get_prop data key = JStr s /\ parsed = JObj [(key, JStr s)].
Proof.
  unfold safeParse. destruct data; try discriminate.
  cbn [parse_shape parse_field].
  destruct (get_prop (JObj props) key) eqn:Hget; cbn -[Nat.ltb]; try discriminate.
  destruct min as [n|]; [destruct (length s <? n)%nat|]; cbn; try discriminate;
    intros [= <-]; eauto.
Qed.

(** What [z.object({ k1: z.number(), k2: z.number() })] accepts. *)
Lemma parse_number_field (v : value) (path : list jsstring) :
  (exists x, v = JNum x /\ parse_field ZNumber v path = inr (JNum x))
  \/ (exists i, parse_field ZNumber v path = inl [i]).
Proof.
  destruct v as [| | |x| | |]; try (right; eexists; reflexivity).
  destruct x; try (right; eexists; reflexivity); left; eauto.
Qed.

Lemma parse_two_numbers (k1 k2 : jsstring) (data parsed : value) :
  safeParse [(k1, ZNumber); (k2, ZNumber)] data = inr parsed ->
  exists x y,
    get_prop data k1 = JNum x /\ get_prop data k2 = JNum y /\
    parsed = JObj [(k1, JNum x); (k2, JNum y)].
Proof.
  unfold safeParse. destruct data; try discriminate.
  cbn [parse_shape].
  destruct (parse_number_field (get_prop (JObj props) k2) [k2])
    as [(y & Hy & ->)|(i & ->)];
  destruct (parse_number_field (get_prop (JObj props) k1) [k1])
    as [(x & Hx & ->)|(j & ->)]; cbn; try discriminate.
  intros [= <-]. eauto.
Qed.

(** *** Registries *)

Lemma assoc_In {A} (k : jsstring) (l : list (jsstring * A)) (a : A) :
  assoc k l = Some a -> In (k, a) l.
Proof.
  induction l as [|[k' a'] l IH]; simpl; [discriminate|].
  destruct (str_eqb k k') eqn:Hk.
  - apply str_eqb_eq in Hk as ->. intros [= ->]. now left.
  - intros H. right. auto.
Qed.

Lemma registry_get_Own {R : Runtime} {A} (registry : list (jsstring * A))
    (name : value) (a : A) :
  registry_get registry name = inr (Own a) ->
  exists key, ToString name = inr key /\ In (key, a) registry.
Proof.
  unfold registry_get. destruct (ToString name) as [e|key]; [discriminate|].
  destruct (assoc key registry) eqn:H.
  - intros [= ->]. exists key. split; [reflexivity|]. now apply assoc_In.
  - now destruct (existsb _ _).
Qed.

(** *** The simple server *)

Section SimpleFacts.
Context {R : Runtime}.
Import SimpleServer.

(** A tool of the registry, given arguments its schema accepts, returns
    an object, and returns the same one on the arguments as they came
    and on the copy Zod made of them. *)
Lemma simple_handler_total (k : jsstring) (t : tool) (args parsed : value) :
  In (k, t) tools ->
  safeParse (schema t) args = inr parsed ->
  exists props,
    handler t args = inr (JObj props) /\ handler t parsed = inr (JObj props).
Proof.
  intros [[= <- <-]|[[= <- <-]|[]]]; cbn [schema handler echo add]; intros Hparse.
  - apply parse_one_string in Hparse as (s & Hget & ->).
    unfold echo_handler.
    destruct args; try discriminate Hget. rewrite Hget.
    cbn -[number_of_nat]. eauto.
  - apply parse_two_numbers in Hparse as (x & y & Hx & Hy & ->).
    unfold add_handler.
    destruct args; try discriminate Hx. rewrite Hx, Hy.
    cbn -[js_add]. eauto.
Qed.

Lemma simple_listCapabilities :
  exists items, listCapabilities = inr (JArr items).
Proof.
  unfold listCapabilities, tools, describe, placeholder_schema.
  rewrite JSON_parse_empty_object. cbn. eauto.
Qed.

(** The body of the [try] on a call of a tool whose schema accepts the
    arguments. *)
Lemma simple_dispatch_tool_call (id params : value) (t : tool) (parsed : value) :
  let p := or_empty_object params in
  registry_get tools (get_prop p (lit "name")) = inr (Own t) ->
  safeParse (schema t) (get_prop p (lit "arguments")) = inr parsed ->
  dispatch id (JStr (lit "tool.call")) params
  = (result <- handler t parsed ;; ret (result_envelope id result)).
Proof.
  intros p Hget Hparse. unfold dispatch.
  change (is_string (JStr (lit "tool.call")) (lit "capability.list")) with false.
  change (is_string (JStr (lit "tool.call")) (lit "tool.call")) with true.
  cbv iota. fold p. rewrite Hget. cbn [lift bind].
  rewrite (parse_accepts _ _ _ Hparse). reflexivity.
Qed.

End SimpleFacts.

(** *** The shape of the answers *)

Lemma result_for_one_of (id envelope : value) :
  result_for id envelope -> one_of_result_error envelope.
Proof.
  intros (result & Hresult & ->).
  destruct id, result; try reflexivity; now destruct Hresult.
Qed.

Lemma error_for_one_of (id envelope : value) :
  error_for id envelope -> one_of_result_error envelope.
Proof. intros (props & ->). destruct id; reflexivity. Qed.

Lemma result_for_id (id envelope : value) :
  result_for id envelope -> get_prop envelope (lit "id") = id.
Proof. now intros (result & _ & ->). Qed.

Lemma error_for_id (id envelope : value) :
  error_for id envelope -> get_prop envelope (lit "id") = id.
Proof. now intros (props & ->). Qed.

Section SimpleShape.
Context {R : Runtime}.
Import SimpleServer.

Lemma simple_dispatch_result (id method params envelope : value) :
  dispatch id method params = inr envelope -> result_for id envelope.
Proof.
  unfold dispatch.
  destruct (is_string method (lit "capability.list")).
  { destruct simple_listCapabilities as [items ->]. cbn.
    intros [= <-]. eexists; split; [|reflexivity]. discriminate. }
  destruct (is_string method (lit "tool.call")); [|discriminate].
  destruct (registry_get tools _) as [e|[t| |]] eqn:Hget; try discriminate.
  2: { cbn [lift bind]. destruct (ToString _); discriminate. }
  cbn [lift bind].
  unfold parse.
  destruct (safeParse (schema t) _) as [issues|parsed] eqn:Hparse; [discriminate|].
  cbn [bind ret].
  destruct (registry_get_Own _ _ _ Hget) as (key & _ & Hin).
  destruct (simple_handler_total _ t _ parsed Hin Hparse) as (props & _ & ->).
  cbn. intros [= <-]. eexists; split; [|reflexivity]. discriminate.
Qed.

Lemma simple_report_error (id : value) (err : exn) : error_for id (report id err).
Proof. destruct err; eexists; reflexivity. Qed.

(** A message other than [null] is answered with one envelope, which
    carries the [id] of the message. *)
Lemma simple_respond_shape (message : value) :
  nullish message = false ->
  exists envelope,
    respond message = inr envelope /\
    (result_for (get_prop message (lit "id")) envelope
     \/ error_for (get_prop message (lit "id")) envelope).
Proof.
  intros Hmsg. unfold respond. rewrite Hmsg.
  destruct (dispatch _ _ _) as [err|envelope] eqn:Hd.
  - eexists; split; [reflexivity|]. right. apply simple_report_error.
  - eexists; split; [reflexivity|]. left. now apply simple_dispatch_result in Hd.
Qed.

End SimpleShape.

Section PromptsShape.
Context {R : Runtime}.
Import PromptsServer.

Lemma prompts_handler_total (k : jsstring) (t : tool) (args parsed : value) :
  In (k, t) tools ->
  safeParse (schema t) args = inr parsed ->
  exists props,
    handler t args = inr (JObj props) /\ handler t parsed = inr (JObj props).
Proof.
  intros [[= <- <-]|[]]; cbn [schema handler markdown_summary]; intros Hparse.
  apply parse_one_string in Hparse as (s & Hget & ->).
  unfold markdown_summary_handler.
  destruct args; try discriminate Hget. rewrite Hget.
  cbn -[join split_whitespace firstn]. eauto.
Qed.

(** The templates of the registry are made of text and variable tags. *)
Lemma prompts_templates_parse (k : jsstring) (p : prompt) :
  In (k, p) promptTemplates ->
  exists tokens, Mustache.parse (template p) = Some tokens.
Proof.
  intros [[= <- <-]|[[= <- <-]|[]]]; eexists; vm_compute; reflexivity.
Qed.

Lemma prompts_dispatch_result (id method params envelope : value) :
  dispatch id method params = inr envelope -> result_for id envelope.
Proof.
  unfold dispatch.
  destruct (is_string method (lit "capability.list")).
  { intros [= <-]. eexists; split; [|reflexivity]. discriminate. }
  destruct (is_string method (lit "tool.call")).
  { destruct (registry_get tools _) as [e|[t| |]] eqn:Hget; try discriminate.
    2: { cbn [lift bind]. destruct (ToString _); discriminate. }
    cbn [lift bind].
    unfold parse.
    destruct (safeParse (schema t) _) as [issues|parsed] eqn:Hparse; [discriminate|].
    cbn [bind ret].
    destruct (registry_get_Own _ _ _ Hget) as (key & _ & Hin).
    destruct (prompts_handler_total _ t _ parsed Hin Hparse) as (props & _ & ->).
    cbn. intros [= <-]. eexists; split; [|reflexivity]. discriminate. }
  destruct (is_string method (lit "prompts.list")).
  { intros [= <-]. eexists; split; [|reflexivity]. discriminate. }
  destruct (is_string method (lit "prompts.build")); [|discriminate].
  destruct (registry_get promptTemplates _) as [e|[p| |]] eqn:Hget; try discriminate.
  2: { cbn [lift bind]. destruct (ToString _); discriminate. }
  cbn [lift bind].
  unfold parse.
  destruct (safeParse (inputSchema p) _) as [issues|parsed] eqn:Hparse; [discriminate|].
  cbn [bind ret].
  destruct (Mustache.render (template p) parsed) as [e|text]; [discriminate|].
  cbn. intros [= <-]. eexists; split; [|reflexivity]. discriminate.
Qed.

Lemma prompts_respond_shape (msg : value) :
  nullish msg = false ->
  exists envelope,
    respond msg = inr envelope /\
    (result_for (get_prop msg (lit "id")) envelope
     \/ error_for (get_prop msg (lit "id")) envelope).
Proof.
  intros Hmsg. unfold respond. rewrite Hmsg.
  destruct (dispatch _ _ _) as [err|envelope] eqn:Hd.
  - eexists; split; [reflexivity|]. right. eexists; reflexivity.
  - eexists; split; [reflexivity|]. left. now apply prompts_dispatch_result in Hd.
Qed.

End PromptsShape.

(** *** What reaches the stream *)

(** [JSON.stringify] leaves out a property exactly when its value is
    [undefined]. *)
Lemma serialize_undefined {R : Runtime} (gap indent : jsstring) (v : value) :
  serialize gap indent v = None <-> v = JUndefined.
Proof.
  destruct v as [| |[]| | | |]; cbn; split; intros H;
    try reflexivity; try discriminate H.
Qed.

(** The text of an object is made of the texts of its [written] members,
    one for each and in their order. *)
Lemma stringify_object {R : Runtime} (props : list (jsstring * value)) :
  JSON_stringify (JObj props)
  = match written (JObj props) with
    | [] => lit "{}"
    | members => lit "{" ++ join (lit ",") (map member_text members) ++ lit "}"
    end.
Proof.
  unfold JSON_stringify. cbn [serialize app].
  match goal with
  | |- context [match ?members props with _ => _ end] =>
      assert (H : members props = map member_text (written (JObj props)))
  end.
  { cbn [written]. induction props as [|[k x] props IH]; [reflexivity|].
    cbn [filter snd]. rewrite IH.
    destruct x as [| |[]| | | |]; reflexivity. }
  rewrite H. now destruct (written (JObj props)).
Qed.

(** An envelope always writes its [jsonrpc] member, so that its text is
    never [{}]. *)
Lemma envelope_text {R : Runtime} (id envelope : value) :
  result_for id envelope \/ error_for id envelope ->
  JSON_stringify envelope
  = lit "{" ++ join (lit ",") (map member_text (written envelope)) ++ lit "}".
Proof.
  intros [(result & _ & ->)|(props & ->)]; unfold result_envelope, error_envelope;
    now rewrite stringify_object.
Qed.

Section Sent.
Context {R : Runtime}.

(** What a line makes a server write is what [send] makes of the
    envelope the listener passes to it. *)
Lemma simple_line_sends (nextId : number) (line chunk : jsstring) :
  In chunk (snd (SimpleServer.on_line nextId line)) ->
  exists envelope,
    simple_sends nextId line envelope /\ chunk = SimpleServer.send envelope.
Proof.
  intros H. unfold simple_sends, SimpleServer.on_line in *.
  destruct (blank line) eqn:Hblank.
  { rewrite (trim_blank _ Hblank) in H. destruct H. }
  destruct (trim line); [destruct H|].
  destruct (JSON_parse line) as [message|] eqn:Hparse; cbn [snd] in H.
  - unfold SimpleServer.handleRequest in H.
    destruct (SimpleServer.respond message) as [err|envelope] eqn:Hr; [destruct H|].
    destruct H as [<-|[]].
    exists envelope. split; [split; [reflexivity|left; eauto]|reflexivity].
  - destruct H as [<-|[]]. eexists.
    split; [split; [reflexivity|right; split; reflexivity]|reflexivity].
Qed.

Lemma prompts_line_sends (line chunk : jsstring) :
  In chunk (PromptsServer.on_line line) ->
  exists envelope,
    prompts_sends line envelope /\ chunk = PromptsServer.send envelope.
Proof.
  intros H. unfold prompts_sends, PromptsServer.on_line in *.
  destruct (blank line) eqn:Hblank.
  { rewrite (trim_blank _ Hblank) in H. destruct H. }
  destruct (trim line); [destruct H|].
  destruct (JSON_parse line) as [message|] eqn:Hparse.
  - unfold PromptsServer.handleRequest in H.
    destruct (PromptsServer.respond message) as [err|envelope] eqn:Hr; [destruct H|].
    destruct H as [<-|[]].
    exists envelope. split; [split; [reflexivity|left; eauto]|reflexivity].
  - destruct H as [<-|[]]. eexists.
    split; [split; [reflexivity|right; split; reflexivity]|reflexivity].
Qed.

(** Only a message that is neither [null] nor [undefined] is answered. *)
Lemma simple_respond_inr (message envelope : value) :
  SimpleServer.respond message = inr envelope -> nullish message = false.
Proof. unfold SimpleServer.respond. now destruct (nullish message). Qed.

Lemma prompts_respond_inr (message envelope : value) :
  PromptsServer.respond message = inr envelope -> nullish message = false.
Proof. unfold PromptsServer.respond. now destruct (nullish message). Qed.

Lemma simple_sends_shape (nextId : number) (line : jsstring) (envelope : value) :
  simple_sends nextId line envelope ->
  exists id, result_for id envelope \/ error_for id envelope.
Proof.
  intros [_ [(message & _ & Hr)|[_ ->]]].
  - destruct (simple_respond_shape message (simple_respond_inr _ _ Hr))
      as (envelope' & Hr' & Hshape).
    rewrite Hr in Hr'. injection Hr' as <-. eauto.
  - eexists. right. eexists. reflexivity.
Qed.

Lemma prompts_sends_shape (line : jsstring) (envelope : value) :
  prompts_sends line envelope ->
  exists id, result_for id envelope \/ error_for id envelope.
Proof.
  intros [_ [(message & _ & Hr)|[_ ->]]].
  - destruct (prompts_respond_shape message (prompts_respond_inr _ _ Hr))
      as (envelope' & Hr' & Hshape).
    rewrite Hr in Hr'. injection Hr' as <-. eauto.
  - eexists. right. eexists. reflexivity.
Qed.

End Sent.

(** A message other than [null] is answered with exactly one envelope,
    which carries the [id] of the message, by either server. *)
Lemma every_message_is_answered (R : Runtime) (message : value) :
  nullish message = false ->
  (exists envelope,
     SimpleServer.handleRequest message = [SimpleServer.send envelope]
     /\ get_prop envelope (lit "id") = get_prop message (lit "id"))
  /\ (exists envelope,
        PromptsServer.handleRequest message = [PromptsServer.send envelope]
        /\ get_prop envelope (lit "id") = get_prop message (lit "id")).
Proof.
  intros Hmsg. split.
  - destruct (simple_respond_shape message Hmsg) as (envelope & Hr & Hshape).
    exists envelope. unfold SimpleServer.handleRequest. rewrite Hr.
    split; [reflexivity|].
    destruct Hshape; [now apply result_for_id|now apply error_for_id].
  - destruct (prompts_respond_shape message Hmsg) as (envelope & Hr & Hshape).
    exists envelope. unfold PromptsServer.handleRequest. rewrite Hr.
    split; [reflexivity|].
    destruct Hshape; [now apply result_for_id|now apply error_for_id].
Qed.

(** [length] counts UTF-16 code units: a character outside the basic
    plane, which JSON carries as a surrogate pair, counts for two. *)
Example echo_counts_code_units :
  SimpleServer.handleRequest (R := Node.runtime)
    (call_request "echo" (JObj [(lit "message", JStr [55357; 56832]%N)]))
  = [json_text "{'jsonrpc':'2.0','id':3,'result':{'echoed':'" ++ [55357; 56832]%N
       ++ json_text "','length':2}}" ++ [10%N]].
Proof. vm_compute. reflexivity. Qed.

(** The lines of the README for the prompts server's tool. *)
Example markdown_summary_line :
  PromptsServer.on_line (R := Node.runtime)
    (json_text "{'jsonrpc':'2.0','id':4,'method':'tool.call','params':{'name':'markdown_summary','arguments':{'content':'# Title\nThis is some example markdown content for summarization.'}}}")
  = [json_text "{'jsonrpc':'2.0','id':4,'result':{'summary':'# Title This is some example markdown content for summarization....'}}"
       ++ [10%N]].
Proof. vm_compute. reflexivity. Qed.

(** The layout of [qa/basic] for any question and context: each value,
    HTML-escaped, at the place of its tag. *)
Lemma qa_basic_layout (R : Runtime) (question context : jsstring) :
  Mustache.render (PromptsServer.template PromptsServer.qa_basic)
    (JObj [(lit "question", JStr question); (lit "context", JStr context)])
  = inr (lit "You are a helpful system. Answer the user question." ++ [10%N]
         ++ lit "Context: " ++ Mustache.escapeHtml context ++ [10%N]
         ++ lit "Question: " ++ Mustache.escapeHtml question ++ [10%N]
         ++ lit "Answer:").
Proof.
  unfold Mustache.render.
  change (Mustache.parse (PromptsServer.template PromptsServer.qa_basic)) with
    (Some [Mustache.Text (lit "You are a helpful system. Answer the user question."
                            ++ [10%N] ++ lit "Context: ");
           Mustache.Name (lit "context");
           Mustache.Text ([10%N] ++ lit "Question: ");
           Mustache.Name (lit "question");
           Mustache.Text ([10%N] ++ lit "Answer:")]).
  cbn -[Mustache.escapeHtml app].
  now rewrite <- !app_assoc.
Qed.

(** ** The claims *)

(** C1.  In the simple server, a [tool.call] whose [params.arguments]
    satisfy the schema of the tool [params.name] names is answered with one
    envelope whose [result] is what the handler of the tool returns on
    those arguments and whose [id] is the one of the request.  In
    particular the line
    [{"jsonrpc":"2.0","id":2,"method":"tool.call","params":{"name":"add","arguments":{"a":2,"b":5}}}]
    is answered with the line [{"jsonrpc":"2.0","id":2,"result":{"sum":7}}]. *)
Theorem tool_call_returns_handler_result :
  (forall (R : Runtime) (message : value) (t : SimpleServer.tool),
     let params := or_empty_object (get_prop message (lit "params")) in
     let args := get_prop params (lit "arguments") in
     get_prop message (lit "method") = JStr (lit "tool.call") ->
     registry_get SimpleServer.tools (get_prop params (lit "name")) = inr (Own t) ->
     (exists parsed, safeParse (SimpleServer.schema t) args = inr parsed) ->
     exists result,
       SimpleServer.handler t args = inr result /\
       SimpleServer.handleRequest message
       = [SimpleServer.send
            (result_envelope (get_prop message (lit "id")) result)])
  /\ SimpleServer.on_line (R := Node.runtime) SimpleServer.initial_nextId
       (json_text "{'jsonrpc':'2.0','id':2,'method':'tool.call','params':{'name':'add','arguments':{'a':2,'b':5}}}")
     = (SimpleServer.initial_nextId,
        [json_text "{'jsonrpc':'2.0','id':2,'result':{'sum':7}}" ++ [10%N]]).
Proof.
  split; [|vm_compute; reflexivity].
  intros R message t params args Hmethod Hget [parsed Hparse].
  destruct (registry_get_Own _ _ _ Hget) as (key & _ & Hin).
  destruct (simple_handler_total _ t args parsed Hin Hparse) as (props & Hargs & Hparsed).
  exists (JObj props). split; [exact Hargs|].
  unfold SimpleServer.handleRequest, SimpleServer.respond.
  destruct message; try discriminate Hmethod.
  cbv beta iota delta [nullish]. rewrite Hmethod.
  rewrite (simple_dispatch_tool_call _ _ t parsed Hget Hparse), Hparsed.
  reflexivity.
Qed.

Lemma tool_call_returns_handler_result_witness :
  exists result,
    SimpleServer.handler (SimpleServer.add (R := Node.runtime))
      (JObj [(lit "a", JNum (number_of_Z 2)); (lit "b", JNum (number_of_Z 5))])
    = inr result /\
    SimpleServer.handleRequest (R := Node.runtime) add_request
    = [SimpleServer.send (R := Node.runtime)
         (result_envelope (JNum (number_of_Z 2)) result)].
Proof.
  apply (proj1 tool_call_returns_handler_result Node.runtime add_request
           (SimpleServer.add (R := Node.runtime))).
  - reflexivity.
  - reflexivity.
  - eexists. reflexivity.
Defined.

(** C9.  A line that is empty or made of white space only makes neither
    server write anything, and the server goes on with the next line. *)
Theorem blank_line_is_ignored (R : Runtime) (line : jsstring) :
  blank line = true ->
  forall (nextId : number) (rest : list jsstring),
    SimpleServer.on_line nextId line = (nextId, [])
    /\ SimpleServer.run nextId (line :: rest) = [] :: SimpleServer.run nextId rest
    /\ PromptsServer.on_line line = []
    /\ PromptsServer.run (line :: rest) = [] :: PromptsServer.run rest.
Proof.
  intros Hblank nextId rest.
  assert (Hs : SimpleServer.on_line nextId line = (nextId, [])).
  { unfold SimpleServer.on_line. now rewrite (trim_blank _ Hblank). }
  assert (Hp : PromptsServer.on_line line = []).
  { unfold PromptsServer.on_line. now rewrite (trim_blank _ Hblank). }
  repeat split; [exact Hs| |exact Hp|].
  - cbn [SimpleServer.run]. rewrite Hs. unfold SimpleServer.ends_process.
    now rewrite (trim_blank _ Hblank).
  - cbn [PromptsServer.run]. rewrite Hp. unfold PromptsServer.ends_process.
    now rewrite (trim_blank _ Hblank).
Qed.

Lemma blank_line_is_ignored_witness :
  let line := lit "  " ++ [9%N] in
  let rest := [lit "{}"] in
  SimpleServer.on_line (R := Node.runtime) (number_of_Z 1) line = (number_of_Z 1, [])
  /\ SimpleServer.run (R := Node.runtime) (number_of_Z 1) (line :: rest)
     = [] :: SimpleServer.run (R := Node.runtime) (number_of_Z 1) rest
  /\ PromptsServer.on_line (R := Node.runtime) line = []
  /\ PromptsServer.run (R := Node.runtime) (line :: rest)
     = [] :: PromptsServer.run (R := Node.runtime) rest.
Proof.
  apply (blank_line_is_ignored Node.runtime). reflexivity.
Defined.

Lemma not_blank_trim (line : jsstring) :
  blank line = false -> exists c rest, trim line = c :: rest.
Proof.
  intros H. destruct (trim line) as [|c rest] eqn:Ht; [|eauto].
  apply trim_nil_blank in Ht. congruence.
Qed.

(** C2, as the code has it.  A line that is not blank and that
    [JSON.parse] rejects makes each server write one error envelope with
    the code -32700, and the server goes on with the next line.  The [id]
    of the envelope is [null] in the prompts server; in the simple server
    it is the current value of the counter [nextId], which the server then
    increments. *)
Theorem parse_error_is_reported (R : Runtime) (line : jsstring) :
  blank line = false ->
  JSON_parse line = None ->
  forall (nextId : number) (rest : list jsstring),
    let simple := SimpleServer.parse_error_envelope (JNum nextId) in
    let prompts := PromptsServer.parse_error_envelope in
    SimpleServer.on_line nextId line
    = (js_add nextId (number_of_Z 1), [SimpleServer.send simple])
    /\ SimpleServer.run nextId (line :: rest)
       = [SimpleServer.send simple]
           :: SimpleServer.run (js_add nextId (number_of_Z 1)) rest
    /\ PromptsServer.on_line line = [PromptsServer.send prompts]
    /\ PromptsServer.run (line :: rest)
       = [PromptsServer.send prompts] :: PromptsServer.run rest
    /\ error_code simple = JNum (number_of_Z (-32700))
    /\ error_code prompts = JNum (number_of_Z (-32700))
    /\ get_prop simple (lit "id") = JNum nextId
    /\ get_prop prompts (lit "id") = JNull.
Proof.
  intros Hblank Hparse nextId rest simple prompts.
  destruct (not_blank_trim _ Hblank) as (c & tail & Htrim).
  assert (Hs : SimpleServer.on_line nextId line
               = (js_add nextId (number_of_Z 1), [SimpleServer.send simple])).
  { unfold SimpleServer.on_line. now rewrite Htrim, Hparse. }
  assert (Hp : PromptsServer.on_line line = [PromptsServer.send prompts]).
  { unfold PromptsServer.on_line. now rewrite Htrim, Hparse. }
  repeat split; try exact Hs; try exact Hp.
  - cbn [SimpleServer.run]. rewrite Hs. unfold SimpleServer.ends_process.
    now rewrite Htrim, Hparse.
  - cbn [PromptsServer.run]. rewrite Hp. unfold PromptsServer.ends_process.
    now rewrite Htrim, Hparse.
Qed.

Lemma parse_error_is_reported_witness :
  let line := lit "{oops" in
  let rest := [lit "]"] in
  let nextId := number_of_Z 1 in
  let simple := SimpleServer.parse_error_envelope (JNum nextId) in
  let prompts := PromptsServer.parse_error_envelope in
  SimpleServer.on_line (R := Node.runtime) nextId line
  = (js_add nextId (number_of_Z 1), [SimpleServer.send (R := Node.runtime) simple])
  /\ SimpleServer.run (R := Node.runtime) nextId (line :: rest)
     = [SimpleServer.send (R := Node.runtime) simple]
         :: SimpleServer.run (R := Node.runtime) (js_add nextId (number_of_Z 1)) rest
  /\ PromptsServer.on_line (R := Node.runtime) line
     = [PromptsServer.send (R := Node.runtime) prompts]
  /\ PromptsServer.run (R := Node.runtime) (line :: rest)
     = [PromptsServer.send (R := Node.runtime) prompts]
         :: PromptsServer.run (R := Node.runtime) rest
  /\ error_code simple = JNum (number_of_Z (-32700))
  /\ error_code prompts = JNum (number_of_Z (-32700))
  /\ get_prop simple (lit "id") = JNum nextId
  /\ get_prop prompts (lit "id") = JNull.
Proof.
  apply (parse_error_is_reported Node.runtime (lit "{oops")); reflexivity.
Defined.

(** C2 as it is stated fails on the simple server: the first line that
    does not parse is answered with the [id] 1, not with [null].  And a
    line of one space, which is not valid JSON either, is answered with
    nothing by either server. *)
Lemma simple_parse_error_id_is_not_null :
  (JSON_parse (Runtime := Node.runtime) (lit "{oops") = None
   /\ SimpleServer.on_line (R := Node.runtime) SimpleServer.initial_nextId (lit "{oops")
      = (number_of_Z 2,
         [json_text "{'jsonrpc':'2.0','id':1,'error':{'code':-32700,'message':'Parse error'}}"
            ++ [10%N]])
   /\ get_prop (SimpleServer.parse_error_envelope (JNum SimpleServer.initial_nextId))
        (lit "id") <> JNull)
  /\ (JSON_parse (Runtime := Node.runtime) (lit " ") = None
      /\ SimpleServer.on_line (R := Node.runtime) SimpleServer.initial_nextId (lit " ")
         = (SimpleServer.initial_nextId, [])
      /\ PromptsServer.on_line (R := Node.runtime) (lit " ") = []).
Proof.
  repeat split; try (vm_compute; reflexivity). discriminate.
Qed.

(** C5, at the input that breaks it.  The line [null] parses, the
    message is destructured outside the [try], the promise of
    [handleRequest] is rejected and neither server writes an envelope. *)
Theorem null_line_is_dropped :
  JSON_parse (Runtime := Node.runtime) (lit "null") = Some JNull
  /\ (forall R : Runtime,
        SimpleServer.handleRequest JNull = [] /\ PromptsServer.handleRequest JNull = [])
  /\ SimpleServer.on_line (R := Node.runtime) SimpleServer.initial_nextId (lit "null")
     = (SimpleServer.initial_nextId, [])
  /\ PromptsServer.on_line (R := Node.runtime) (lit "null") = [].
Proof.
  repeat split; vm_compute; reflexivity.
Qed.




(** C7.  Two [capability.list] requests get the same result, whatever
    else the requests hold, in the simple server and in the prompts
    server. *)
Theorem capability_list_is_idempotent (R : Runtime) (first second : value) :
  get_prop first (lit "method") = JStr (lit "capability.list") ->
  get_prop second (lit "method") = JStr (lit "capability.list") ->
  (exists payload,
     SimpleServer.handleRequest first
     = [SimpleServer.send (result_envelope (get_prop first (lit "id")) payload)]
     /\ SimpleServer.handleRequest second
        = [SimpleServer.send (result_envelope (get_prop second (lit "id")) payload)])
  /\ (exists payload,
        PromptsServer.handleRequest first
        = [PromptsServer.send (result_envelope (get_prop first (lit "id")) payload)]
        /\ PromptsServer.handleRequest second
           = [PromptsServer.send (result_envelope (get_prop second (lit "id")) payload)]).
Proof.
  intros H1 H2.
  destruct first; try discriminate H1. destruct second; try discriminate H2.
  split.
  - destruct simple_listCapabilities as [items Hitems].
    exists (JObj [(lit "tools", JArr items)]).
    unfold SimpleServer.handleRequest, SimpleServer.respond, SimpleServer.dispatch.
    cbv beta iota delta [nullish]. rewrite H1, H2, Hitems. split; reflexivity.
  - exists PromptsServer.listCapabilities.
    unfold PromptsServer.handleRequest, PromptsServer.respond, PromptsServer.dispatch.
    cbv beta iota delta [nullish]. rewrite H1, H2. split; reflexivity.
Qed.

Lemma capability_list_is_idempotent_witness :
  (exists payload,
     SimpleServer.handleRequest (R := Node.runtime) (list_request 1)
     = [SimpleServer.send (R := Node.runtime)
          (result_envelope (JNum (number_of_Z 1)) payload)]
     /\ SimpleServer.handleRequest (R := Node.runtime) (list_request 2)
        = [SimpleServer.send (R := Node.runtime)
             (result_envelope (JNum (number_of_Z 2)) payload)])
  /\ (exists payload,
        PromptsServer.handleRequest (R := Node.runtime) (list_request 1)
        = [PromptsServer.send (R := Node.runtime)
             (result_envelope (JNum (number_of_Z 1)) payload)]
        /\ PromptsServer.handleRequest (R := Node.runtime) (list_request 2)
           = [PromptsServer.send (R := Node.runtime)
                (result_envelope (JNum (number_of_Z 2)) payload)]).
Proof.
  apply (capability_list_is_idempotent Node.runtime (list_request 1) (list_request 2));
    reflexivity.
Defined.

(** C8.  Whatever a line makes a server write is the JSON text of the
    envelope the listener passes to [send], and that envelope is the
    object [{ jsonrpc, id, result }] with a [result] that is not
    [undefined], or the object [{ jsonrpc, id, error }] with an object
    for [error].  The text has one member for each property whose value is
    not [undefined], in their order, so that exactly one member of it is
    named [result] or [error]. *)
Theorem envelope_has_result_xor_error (R : Runtime) (nextId : number)
    (line chunk : jsstring) :
  (In chunk (snd (SimpleServer.on_line nextId line)) ->
   exists id envelope,
     simple_sends nextId line envelope
     /\ (result_for id envelope \/ error_for id envelope)
     /\ one_of_result_error envelope
     /\ chunk
        = (lit "{" ++ join (lit ",") (map member_text (written envelope)) ++ lit "}")
          ++ [10%N])
  /\ (In chunk (PromptsServer.on_line line) ->
      exists id envelope,
        prompts_sends line envelope
        /\ (result_for id envelope \/ error_for id envelope)
        /\ one_of_result_error envelope
        /\ chunk
           = (lit "{" ++ join (lit ",") (map member_text (written envelope)) ++ lit "}")
             ++ [10%N]).
Proof.
  split; intros H.
  - destruct (simple_line_sends _ _ _ H) as (envelope & Hsends & ->).
    destruct (simple_sends_shape _ _ _ Hsends) as (id & Hshape).
    exists id, envelope. split; [exact Hsends|]. split; [exact Hshape|].
    split; [destruct Hshape; [eapply result_for_one_of|eapply error_for_one_of]; eassumption|].
    unfold SimpleServer.send. now rewrite (envelope_text id).
  - destruct (prompts_line_sends _ _ H) as (envelope & Hsends & ->).
    destruct (prompts_sends_shape _ _ Hsends) as (id & Hshape).
    exists id, envelope. split; [exact Hsends|]. split; [exact Hshape|].
    split; [destruct Hshape; [eapply result_for_one_of|eapply error_for_one_of]; eassumption|].
    unfold PromptsServer.send. now rewrite (envelope_text id).
Qed.

Lemma envelope_has_result_xor_error_witness :
  let line :=
    json_text "{'jsonrpc':'2.0','id':2,'method':'tool.call','params':{'name':'add','arguments':{'a':2,'b':5}}}" in
  let chunk := json_text "{'jsonrpc':'2.0','id':2,'result':{'sum':7}}" ++ [10%N] in
  exists id envelope,
    simple_sends (R := Node.runtime) SimpleServer.initial_nextId line envelope
    /\ (result_for id envelope \/ error_for id envelope)
    /\ one_of_result_error envelope
    /\ chunk
       = (lit "{"
            ++ join (lit ",") (map (member_text (R := Node.runtime)) (written envelope))
            ++ lit "}")
         ++ [10%N].
Proof.
  intros line chunk.
  apply (proj1 (envelope_has_result_xor_error Node.runtime SimpleServer.initial_nextId
                  line chunk)).
  vm_compute. left. reflexivity.
Defined.

(** C10.  A call of [echo] with a string [message] is answered with the
    result [{ echoed, length }], where [echoed] is the message and
    [length] the number of its characters (the UTF-16 code units a
    JavaScript string is made of). *)
Theorem echo_returns_message_and_length (R : Runtime) (message : value) (s : jsstring) :
  let params := or_empty_object (get_prop message (lit "params")) in
  get_prop message (lit "method") = JStr (lit "tool.call") ->
  get_prop params (lit "name") = JStr (lit "echo") ->
  get_prop (get_prop params (lit "arguments")) (lit "message") = JStr s ->
  SimpleServer.handleRequest message
  = [SimpleServer.send
       (result_envelope (get_prop message (lit "id"))
          (JObj [(lit "echoed", JStr s);
                 (lit "length", JNum (number_of_nat (length s)))]))].
Proof.
  intros params Hmethod Hname Hmessage.
  destruct message; try discriminate Hmethod.
  unfold SimpleServer.handleRequest, SimpleServer.respond, SimpleServer.dispatch.
  cbv beta iota delta [nullish]. rewrite Hmethod.
  change (is_string (JStr (lit "tool.call")) (lit "capability.list")) with false.
  change (is_string (JStr (lit "tool.call")) (lit "tool.call")) with true.
  cbv iota. fold params. rewrite Hname.
  change (registry_get SimpleServer.tools (JStr (lit "echo")))
    with (@inr native_error _ (Own SimpleServer.echo)).
  cbn [lift bind].
  cbn [SimpleServer.schema SimpleServer.handler SimpleServer.echo].
  destruct (get_prop params (lit "arguments")) as [| | | | | |fields] eqn:Hargs;
    try discriminate Hmessage.
  unfold parse, safeParse. cbn [parse_shape parse_field]. rewrite Hmessage.
  cbn -[number_of_nat]. reflexivity.
Qed.

Lemma echo_returns_message_and_length_witness :
  SimpleServer.handleRequest (R := Node.runtime) echo_request
  = [SimpleServer.send (R := Node.runtime)
       (result_envelope (JNum (number_of_Z 1))
          (JObj [(lit "echoed", JStr (lit "hello"));
                 (lit "length", JNum (number_of_nat 5))]))].
Proof.
  apply (echo_returns_message_and_length Node.runtime echo_request (lit "hello"));
    reflexivity.
Defined.

(** C3, as the code has it.  In the simple server a [tool.call] whose
    arguments the schema of the tool rejects is answered with an error
    envelope with the code -32602, the message [Invalid params] and the
    list of the issues in [data].  In the prompts server a [tool.call] or
    a [prompts.build] whose arguments or variables the schema rejects is
    answered with an error envelope with the code -32000, whose message is
    the JSON text of the issues and which has no [data]. *)
Theorem validation_failure_is_reported (R : Runtime) (message : value)
    (issues : list issue) :
  let id := get_prop message (lit "id") in
  let method := get_prop message (lit "method") in
  let params := or_empty_object (get_prop message (lit "params")) in
  let name := get_prop params (lit "name") in
  (forall t,
      method = JStr (lit "tool.call") ->
      registry_get SimpleServer.tools name = inr (Own t) ->
      safeParse (SimpleServer.schema t) (get_prop params (lit "arguments")) = inl issues ->
      SimpleServer.handleRequest message
      = [SimpleServer.send (invalid_params_envelope id issues)])
  /\ (forall t,
        method = JStr (lit "tool.call") ->
        registry_get PromptsServer.tools name = inr (Own t) ->
        safeParse (PromptsServer.schema t) (get_prop params (lit "arguments")) = inl issues ->
        PromptsServer.handleRequest message
        = [PromptsServer.send (zod_message_envelope id issues)])
  /\ (forall p,
        method = JStr (lit "prompts.build") ->
        registry_get PromptsServer.promptTemplates name = inr (Own p) ->
        safeParse (PromptsServer.inputSchema p)
          (or_empty_object (get_prop params (lit "variables"))) = inl issues ->
        PromptsServer.handleRequest message
        = [PromptsServer.send (zod_message_envelope id issues)])
  /\ error_code (invalid_params_envelope id issues) = JNum (number_of_Z (-32602))
  /\ error_data (invalid_params_envelope id issues) = errors issues
  /\ error_code (zod_message_envelope id issues) = JNum (number_of_Z (-32000))
  /\ error_data (zod_message_envelope id issues) = JUndefined.
Proof.
  intros id method params name.
  split; [|split; [|split]].
  - intros t Hmethod Hget Hparse.
    unfold method in Hmethod. destruct message; try discriminate Hmethod.
    unfold SimpleServer.handleRequest, SimpleServer.respond, SimpleServer.dispatch.
    cbv beta iota delta [nullish]. rewrite Hmethod.
    change (is_string (JStr (lit "tool.call")) (lit "capability.list")) with false.
    change (is_string (JStr (lit "tool.call")) (lit "tool.call")) with true.
    cbv iota. fold params. fold name. rewrite Hget. cbn [lift bind].
    rewrite (parse_rejects _ _ _ Hparse). reflexivity.
  - intros t Hmethod Hget Hparse.
    unfold method in Hmethod. destruct message; try discriminate Hmethod.
    unfold PromptsServer.handleRequest, PromptsServer.respond, PromptsServer.dispatch.
    cbv beta iota delta [nullish]. rewrite Hmethod.
    change (is_string (JStr (lit "tool.call")) (lit "capability.list")) with false.
    change (is_string (JStr (lit "tool.call")) (lit "tool.call")) with true.
    cbv iota. fold params. fold name. rewrite Hget. cbn [lift bind].
    rewrite (parse_rejects _ _ _ Hparse). reflexivity.
  - intros p Hmethod Hget Hparse.
    unfold method in Hmethod. destruct message; try discriminate Hmethod.
    unfold PromptsServer.handleRequest, PromptsServer.respond, PromptsServer.dispatch.
    cbv beta iota delta [nullish]. rewrite Hmethod.
    change (is_string (JStr (lit "prompts.build")) (lit "capability.list")) with false.
    change (is_string (JStr (lit "prompts.build")) (lit "tool.call")) with false.
    change (is_string (JStr (lit "prompts.build")) (lit "prompts.list")) with false.
    change (is_string (JStr (lit "prompts.build")) (lit "prompts.build")) with true.
    cbv iota. fold params. fold name. rewrite Hget. cbn [lift bind].
    rewrite (parse_rejects _ _ _ Hparse). reflexivity.
  - repeat split.
Qed.

Lemma validation_failure_is_reported_witness :
  let id := JNum (number_of_Z 3) in
  let no_message := [invalid_type (lit "string") (lit "undefined") [lit "message"]] in
  let empty_content := [too_small 1 [lit "content"]] in
  let no_question := [invalid_type (lit "string") (lit "undefined") [lit "question"]] in
  (safeParse (SimpleServer.schema SimpleServer.echo) (JObj []) = inl no_message
   /\ SimpleServer.handleRequest (R := Node.runtime) (call_request "echo" (JObj []))
      = [SimpleServer.send (R := Node.runtime)
           (invalid_params_envelope (R := Node.runtime) id no_message)])
  /\ (safeParse (PromptsServer.schema PromptsServer.markdown_summary)
        (JObj [(lit "content", JStr [])]) = inl empty_content
      /\ PromptsServer.handleRequest (R := Node.runtime)
           (call_request "markdown_summary" (JObj [(lit "content", JStr [])]))
         = [PromptsServer.send (R := Node.runtime)
              (zod_message_envelope (R := Node.runtime) id empty_content)])
  /\ (safeParse (PromptsServer.inputSchema PromptsServer.qa_basic)
        (JObj [(lit "context", JStr (lit "Protocol for tools"))]) = inl no_question
      /\ PromptsServer.handleRequest (R := Node.runtime)
           (build_request "qa/basic"
              (JObj [(lit "context", JStr (lit "Protocol for tools"))]))
         = [PromptsServer.send (R := Node.runtime)
              (zod_message_envelope (R := Node.runtime) id no_question)]).
Proof.
  intros id no_message empty_content no_question.
  split; [|split]; (split; [reflexivity|]).
  - apply (proj1 (validation_failure_is_reported Node.runtime
                    (call_request "echo" (JObj [])) no_message)
             SimpleServer.echo); reflexivity.
  - apply (proj1 (proj2 (validation_failure_is_reported Node.runtime
                    (call_request "markdown_summary" (JObj [(lit "content", JStr [])]))
                    empty_content))
             PromptsServer.markdown_summary); reflexivity.
  - apply (proj1 (proj2 (proj2 (validation_failure_is_reported Node.runtime
                    (build_request "qa/basic"
                       (JObj [(lit "context", JStr (lit "Protocol for tools"))]))
                    no_question)))
             PromptsServer.qa_basic); reflexivity.
Defined.

(** C3 as it is stated fails on the prompts server: a [tool.call] of
    [markdown_summary] without [content] fails the schema and is answered
    with the code -32000 and no [data]. *)
Lemma prompts_validation_failure_has_no_data :
  safeParse [(lit "content", ZString (Some 1))] (JObj [])
  = inl [invalid_type (lit "string") (lit "undefined") [lit "content"]]
  /\ exists envelope,
       PromptsServer.handleRequest (R := Node.runtime)
         (call_request "markdown_summary" (JObj []))
       = [PromptsServer.send (R := Node.runtime) envelope]
       /\ error_code envelope = JNum (number_of_Z (-32000))
       /\ error_code envelope <> JNum (number_of_Z (-32602))
       /\ error_data envelope = JUndefined.
Proof.
  split; [reflexivity|].
  exists (zod_message_envelope (R := Node.runtime) (JNum (number_of_Z 3))
            [invalid_type (lit "string") (lit "undefined") [lit "content"]]).
  repeat split. discriminate.
Qed.

(** C6.  [prompts.build] of [qa/basic] with the question [What is MCP?]
    and the context [Protocol for tools] returns the template with the
    context after [Context: ] and the question after [Question: ], and
    each of the two values occurs exactly once in the text. *)
Theorem qa_basic_renders_each_field_once (R : Runtime) (id : value) :
  let question := lit "What is MCP?" in
  let context := lit "Protocol for tools" in
  let rendered :=
    lit "You are a helpful system. Answer the user question." ++ [10%N]
    ++ lit "Context: " ++ context ++ [10%N]
    ++ lit "Question: " ++ question ++ [10%N]
    ++ lit "Answer:" in
  PromptsServer.handleRequest
    (JObj [(lit "jsonrpc", JStr (lit "2.0"));
           (lit "id", id);
           (lit "method", JStr (lit "prompts.build"));
           (lit "params",
            JObj [(lit "name", JStr (lit "qa/basic"));
                  (lit "variables",
                   JObj [(lit "question", JStr question);
                         (lit "context", JStr context)])])])
  = [PromptsServer.send (result_envelope id (JObj [(lit "prompt", JStr rendered)]))]
  /\ occurrences question rendered = 1
  /\ occurrences context rendered = 1
  /\ PromptsServer.on_line (R := Node.runtime)
       (json_text "{'jsonrpc':'2.0','id':3,'method':'prompts.build','params':{'name':'qa/basic','variables':{'question':'What is MCP?','context':'Protocol for tools'}}}")
     = [json_text "{'jsonrpc':'2.0','id':3,'result':{'prompt':'You are a helpful system. Answer the user question.\nContext: Protocol for tools\nQuestion: What is MCP?\nAnswer:'}}"
          ++ [10%N]].
Proof.
  intros question context rendered.
  split; [reflexivity|].
  split; [vm_compute; reflexivity|].
  split; vm_compute; reflexivity.
Qed.

(** ** Further properties of the two servers *)

(** *** Tools and prompts that do not resolve *)

Lemma registry_get_Absent {R : Runtime} {A} (registry : list (jsstring * A))
    (name : value) (key : jsstring) :
  ToString name = inr key ->
  assoc key registry = None ->
  existsb (str_eqb key) object_prototype_keys = false ->
  registry_get registry name = inr Absent.
Proof. unfold registry_get. now intros -> -> ->. Qed.

Lemma prototype_key_cases (key : jsstring) :
  existsb (str_eqb key) object_prototype_keys = true ->
  In key object_prototype_keys.
Proof.
  intros H. apply existsb_exists in H as (k & Hin & Heq).
  apply str_eqb_eq in Heq. now subst.
Qed.

Lemma registry_get_Inherited {R : Runtime} {A} (registry : list (jsstring * A))
    (name : value) (key : jsstring) :
  ToString name = inr key ->
  assoc key registry = None ->
  existsb (str_eqb key) object_prototype_keys = true ->
  registry_get registry name = inr Inherited.
Proof. unfold registry_get. now intros -> -> ->. Qed.

(** No name of a tool or of a prompt is a member of [Object.prototype]. *)
Lemma prototype_key_not_registered {R : Runtime} (key : jsstring) :
  existsb (str_eqb key) object_prototype_keys = true ->
  assoc key SimpleServer.tools = None
  /\ assoc key PromptsServer.tools = None
  /\ assoc key PromptsServer.promptTemplates = None.
Proof.
  intros H. apply prototype_key_cases in H.
  repeat (destruct H as [<-|H]; [repeat split; reflexivity|]). destruct H.
Qed.

Section Unresolved.
Context {R : Runtime}.

Lemma simple_tool_call (message : value) :
  get_prop message (lit "method") = JStr (lit "tool.call") ->
  SimpleServer.respond message
  = inr match
          (let p := or_empty_object (get_prop message (lit "params")) in
           found <- lift (registry_get SimpleServer.tools (get_prop p (lit "name"))) ;;
           match found with
           | Absent =>
               text <- lift (ToString (get_prop p (lit "name"))) ;;
               throw (Error (lit "Unknown tool: " ++ text))
           | Inherited => throw (Native (cannot_read JUndefined (lit "parse")))
           | Own tool =>
               parsed <- parse (SimpleServer.schema tool) (get_prop p (lit "arguments")) ;;
               result <- SimpleServer.handler tool parsed ;;
               ret (result_envelope (get_prop message (lit "id")) result)
           end)
        with
        | inr envelope => envelope
        | inl err => SimpleServer.report (get_prop message (lit "id")) err
        end.
Proof.
  intros Hmethod. destruct message; try discriminate Hmethod.
  unfold SimpleServer.respond, SimpleServer.dispatch.
  cbv beta iota delta [nullish]. rewrite Hmethod.
  change (is_string (JStr (lit "tool.call")) (lit "capability.list")) with false.
  change (is_string (JStr (lit "tool.call")) (lit "tool.call")) with true.
  cbv iota zeta. now destruct (bind _ _).
Qed.

Lemma prompts_tool_call (message : value) :
  get_prop message (lit "method") = JStr (lit "tool.call") ->
  PromptsServer.respond message
  = inr match
          (let p := or_empty_object (get_prop message (lit "params")) in
           found <- lift (registry_get PromptsServer.tools (get_prop p (lit "name"))) ;;
           match found with
           | Absent =>
               text <- lift (ToString (get_prop p (lit "name"))) ;;
               throw (Error (lit "Unknown tool: " ++ text))
           | Inherited => throw (Native (cannot_read JUndefined (lit "parse")))
           | Own tool =>
               parsed <- parse (PromptsServer.schema tool) (get_prop p (lit "arguments")) ;;
               result <- PromptsServer.handler tool parsed ;;
               ret (result_envelope (get_prop message (lit "id")) result)
           end)
        with
        | inr envelope => envelope
        | inl err => PromptsServer.report (get_prop message (lit "id")) err
        end.
Proof.
  intros Hmethod. destruct message; try discriminate Hmethod.
  unfold PromptsServer.respond, PromptsServer.dispatch.
  cbv beta iota delta [nullish]. rewrite Hmethod.
  change (is_string (JStr (lit "tool.call")) (lit "capability.list")) with false.
  change (is_string (JStr (lit "tool.call")) (lit "tool.call")) with true.
  cbv iota zeta. now destruct (bind _ _).
Qed.

Lemma prompts_build (message : value) :
  get_prop message (lit "method") = JStr (lit "prompts.build") ->
  PromptsServer.respond message
  = inr match
          (let q := or_empty_object (get_prop message (lit "params")) in
           found <- lift (registry_get PromptsServer.promptTemplates
                            (get_prop q (lit "name"))) ;;
           match found with
           | Absent =>
               text <- lift (ToString (get_prop q (lit "name"))) ;;
               throw (Error (lit "Unknown prompt: " ++ text))
           | Inherited => throw (Native (cannot_read JUndefined (lit "parse")))
           | Own p =>
               parsed <- parse (PromptsServer.inputSchema p)
                           (or_empty_object (get_prop q (lit "variables"))) ;;
               rendered <- Mustache.render (PromptsServer.template p) parsed ;;
               ret (result_envelope (get_prop message (lit "id"))
                      (JObj [(lit "prompt", JStr rendered)]))
           end)
        with
        | inr envelope => envelope
        | inl err => PromptsServer.report (get_prop message (lit "id")) err
        end.
Proof.
  intros Hmethod. destruct message; try discriminate Hmethod.
  unfold PromptsServer.respond, PromptsServer.dispatch.
  cbv beta iota delta [nullish]. rewrite Hmethod.
  change (is_string (JStr (lit "prompts.build")) (lit "capability.list")) with false.
  change (is_string (JStr (lit "prompts.build")) (lit "tool.call")) with false.
  change (is_string (JStr (lit "prompts.build")) (lit "prompts.list")) with false.
  change (is_string (JStr (lit "prompts.build")) (lit "prompts.build")) with true.
  cbv iota zeta. now destruct (bind _ _).
Qed.

End Unresolved.

(** X1.  A [tool.call] whose name, as a property key, is neither a tool of
    the registry nor a member of [Object.prototype] is answered with the
    code -32000 and the message [Unknown tool: ] followed by the name; a
    request without [params] is answered this way for the name
    [undefined].  [prompts.build] does the same with [Unknown prompt: ]. *)
Theorem unknown_name_is_reported (R : Runtime) (message : value) (name : jsstring) :
  let id := get_prop message (lit "id") in
  let method := get_prop message (lit "method") in
  let params := or_empty_object (get_prop message (lit "params")) in
  ToString (get_prop params (lit "name")) = inr name ->
  existsb (str_eqb name) object_prototype_keys = false ->
  (method = JStr (lit "tool.call") ->
   assoc name SimpleServer.tools = None ->
   SimpleServer.handleRequest message
   = [SimpleServer.send (failure_envelope id (lit "Unknown tool: " ++ name))])
  /\ (method = JStr (lit "tool.call") ->
      assoc name PromptsServer.tools = None ->
      PromptsServer.handleRequest message
      = [PromptsServer.send (failure_envelope id (lit "Unknown tool: " ++ name))])
  /\ (method = JStr (lit "prompts.build") ->
      assoc name PromptsServer.promptTemplates = None ->
      PromptsServer.handleRequest message
      = [PromptsServer.send (failure_envelope id (lit "Unknown prompt: " ++ name))]).
Proof.
  intros id method params Hname Hproto. repeat split; intros Hmethod Hnone.
  - unfold SimpleServer.handleRequest. rewrite (simple_tool_call _ Hmethod).
    cbv zeta. fold params.
    rewrite (registry_get_Absent _ _ _ Hname Hnone Hproto), Hname. reflexivity.
  - unfold PromptsServer.handleRequest. rewrite (prompts_tool_call _ Hmethod).
    cbv zeta. fold params.
    rewrite (registry_get_Absent _ _ _ Hname Hnone Hproto), Hname. reflexivity.
  - unfold PromptsServer.handleRequest. rewrite (prompts_build _ Hmethod).
    cbv zeta. fold params.
    rewrite (registry_get_Absent _ _ _ Hname Hnone Hproto), Hname. reflexivity.
Qed.

Lemma unknown_name_is_reported_witness :
  let id := JNum (number_of_Z 5) in
  let bare (method : string) :=
    JObj [(lit "jsonrpc", JStr (lit "2.0")); (lit "id", id);
          (lit "method", JStr (lit method))] in
  SimpleServer.handleRequest (R := Node.runtime) (bare "tool.call"%string)
  = [SimpleServer.send (R := Node.runtime)
       (failure_envelope id (lit "Unknown tool: undefined"))]
  /\ PromptsServer.handleRequest (R := Node.runtime) (bare "tool.call"%string)
     = [PromptsServer.send (R := Node.runtime)
          (failure_envelope id (lit "Unknown tool: undefined"))]
  /\ PromptsServer.handleRequest (R := Node.runtime) (bare "prompts.build"%string)
     = [PromptsServer.send (R := Node.runtime)
          (failure_envelope id (lit "Unknown prompt: undefined"))].
Proof.
  intros id bare.
  split; [|split].
  - apply (proj1 (unknown_name_is_reported Node.runtime (bare "tool.call"%string)
                    (lit "undefined") eq_refl eq_refl)); reflexivity.
  - apply (proj1 (proj2 (unknown_name_is_reported Node.runtime (bare "tool.call"%string)
                    (lit "undefined") eq_refl eq_refl))); reflexivity.
  - apply (proj2 (proj2 (unknown_name_is_reported Node.runtime (bare "prompts.build"%string)
                    (lit "undefined") eq_refl eq_refl))); reflexivity.
Defined.

(** X2.  A name that is a member of [Object.prototype] ([constructor],
    [toString], [__proto__], ...) is not reported as unknown: the lookup
    finds the inherited member, which has no schema, and the request is
    answered with the code -32000 and the message of the [TypeError] the
    engine raises for reading [parse] of [undefined]. *)
Theorem inherited_name_is_a_type_error (R : Runtime) (message : value) (name : jsstring) :
  let id := get_prop message (lit "id") in
  let method := get_prop message (lit "method") in
  let params := or_empty_object (get_prop message (lit "params")) in
  let text := native_message (cannot_read JUndefined (lit "parse")) in
  ToString (get_prop params (lit "name")) = inr name ->
  existsb (str_eqb name) object_prototype_keys = true ->
  (method = JStr (lit "tool.call") ->
   SimpleServer.handleRequest message = [SimpleServer.send (failure_envelope id text)]
   /\ PromptsServer.handleRequest message = [PromptsServer.send (failure_envelope id text)])
  /\ (method = JStr (lit "prompts.build") ->
      PromptsServer.handleRequest message
      = [PromptsServer.send (failure_envelope id text)]).
Proof.
  intros id method params text Hname Hproto.
  destruct (prototype_key_not_registered name Hproto) as (Hs & Hp & Ht).
  split; [intros Hmethod; split|intros Hmethod].
  - unfold SimpleServer.handleRequest. rewrite (simple_tool_call _ Hmethod).
    cbv zeta. fold params.
    rewrite (registry_get_Inherited _ _ _ Hname Hs Hproto). reflexivity.
  - unfold PromptsServer.handleRequest. rewrite (prompts_tool_call _ Hmethod).
    cbv zeta. fold params.
    rewrite (registry_get_Inherited _ _ _ Hname Hp Hproto). reflexivity.
  - unfold PromptsServer.handleRequest. rewrite (prompts_build _ Hmethod).
    cbv zeta. fold params.
    rewrite (registry_get_Inherited _ _ _ Hname Ht Hproto). reflexivity.
Qed.

Lemma inherited_name_is_a_type_error_witness :
  let id := JNum (number_of_Z 5) in
  let text := lit "Cannot read properties of undefined (reading 'parse')" in
  (SimpleServer.handleRequest (R := Node.runtime)
     (request id "tool.call" (call "constructor" (JObj [])))
   = [SimpleServer.send (R := Node.runtime) (failure_envelope id text)]
   /\ PromptsServer.handleRequest (R := Node.runtime)
        (request id "tool.call" (call "constructor" (JObj [])))
      = [PromptsServer.send (R := Node.runtime) (failure_envelope id text)])
  /\ PromptsServer.handleRequest (R := Node.runtime)
       (request id "prompts.build" (build "toString" (JObj [])))
     = [PromptsServer.send (R := Node.runtime) (failure_envelope id text)].
Proof.
  intros id text. split.
  - apply (proj1 (inherited_name_is_a_type_error Node.runtime
                    (request id "tool.call" (call "constructor" (JObj [])))
                    (lit "constructor") eq_refl eq_refl)). reflexivity.
  - apply (proj2 (inherited_name_is_a_type_error Node.runtime
                    (request id "prompts.build" (build "toString" (JObj [])))
                    (lit "toString") eq_refl eq_refl)). reflexivity.
Defined.

(** *** The tools of the simple server *)

Lemma SFadd_comm (x y : number) : js_add x y = js_add y x.
Proof.
  unfold js_add.
  destruct x as [[]|[]| |sx mx ex], y as [[]|[]| |sy my ey]; try reflexivity.
  cbn [SFadd]. now rewrite (Z.min_comm ex ey), Z.add_comm.
Qed.

(** X3.  A call of [echo] whose [message] is not a string is answered
    with the code -32602 and one issue: the type of the message under the
    path [message], or, when the arguments are not an object, the type of
    the arguments under the empty path. *)
Theorem echo_rejects_what_is_not_a_string (R : Runtime) (message : value) :
  let id := get_prop message (lit "id") in
  let params := or_empty_object (get_prop message (lit "params")) in
  let args := get_prop params (lit "arguments") in
  let issues :=
    match args with
    | JObj _ =>
        [invalid_type (lit "string") (parsed_type (get_prop args (lit "message")))
           [lit "message"]]
    | _ => [invalid_type (lit "object") (parsed_type args) []]
    end in
  get_prop message (lit "method") = JStr (lit "tool.call") ->
  get_prop params (lit "name") = JStr (lit "echo") ->
  (forall s, get_prop args (lit "message") <> JStr s) ->
  SimpleServer.handleRequest message
  = [SimpleServer.send (invalid_params_envelope id issues)].
Proof.
  intros id params args issues Hmethod Hname Hnot.
  unfold SimpleServer.handleRequest. rewrite (simple_tool_call _ Hmethod).
  cbv zeta. fold params. rewrite Hname.
  change (registry_get SimpleServer.tools (JStr (lit "echo")))
    with (@inr native_error _ (Own SimpleServer.echo)).
  cbn [lift bind SimpleServer.schema SimpleServer.echo]. fold args.
  unfold parse, safeParse. subst issues.
  destruct args as [| | | | | |props] eqn:Hargs; try reflexivity.
  cbn [parse_shape parse_field].
  destruct (get_prop (JObj props) (lit "message")) as [| | | |s| |] eqn:Hm;
    try reflexivity.
  now destruct (Hnot s).
Qed.

Lemma echo_rejects_what_is_not_a_string_witness :
  let id := JNum (number_of_Z 5) in
  SimpleServer.handleRequest (R := Node.runtime)
    (request id "tool.call" (call "echo" (JObj [(lit "message", JNum (number_of_Z 5))])))
  = [SimpleServer.send (R := Node.runtime)
       (invalid_params_envelope (R := Node.runtime) id
          [invalid_type (lit "string") (lit "number") [lit "message"]])].
Proof.
  intros id.
  apply (echo_rejects_what_is_not_a_string Node.runtime
           (request id "tool.call"
              (call "echo" (JObj [(lit "message", JNum (number_of_Z 5))]))));
    try reflexivity.
  intros s. discriminate.
Defined.

(** X4.  A call of [add] with two numbers is answered with their
    binary64 sum, which does not depend on the order of the two. *)
Theorem add_returns_the_sum (R : Runtime) (message : value) (x y : number) :
  let id := get_prop message (lit "id") in
  let params := or_empty_object (get_prop message (lit "params")) in
  let args := get_prop params (lit "arguments") in
  get_prop message (lit "method") = JStr (lit "tool.call") ->
  get_prop params (lit "name") = JStr (lit "add") ->
  get_prop args (lit "a") = JNum x ->
  get_prop args (lit "b") = JNum y ->
  x <> S754_nan -> y <> S754_nan ->
  SimpleServer.handleRequest message
  = [SimpleServer.send (result_envelope id (JObj [(lit "sum", JNum (js_add x y))]))]
  /\ js_add x y = js_add y x.
Proof.
  intros id params args Hmethod Hname Ha Hb Hx Hy.
  split; [|apply SFadd_comm].
  unfold SimpleServer.handleRequest. rewrite (simple_tool_call _ Hmethod).
  cbv zeta. fold params. rewrite Hname.
  change (registry_get SimpleServer.tools (JStr (lit "add")))
    with (@inr native_error _ (Own SimpleServer.add)).
  cbn [lift bind SimpleServer.schema SimpleServer.handler SimpleServer.add]. fold args.
  unfold parse, safeParse.
  destruct args as [| | | | | |props] eqn:Hargs; try discriminate Ha.
  cbn [parse_shape parse_field]. rewrite Ha, Hb.
  destruct x; try (now destruct Hx); destruct y; try (now destruct Hy); reflexivity.
Qed.

Lemma add_returns_the_sum_witness :
  let id := JNum (number_of_Z 2) in
  SimpleServer.handleRequest (R := Node.runtime) add_request
  = [SimpleServer.send (R := Node.runtime)
       (result_envelope id
          (JObj [(lit "sum", JNum (js_add (number_of_Z 2) (number_of_Z 5)))]))]
  /\ js_add (number_of_Z 2) (number_of_Z 5) = js_add (number_of_Z 5) (number_of_Z 2).
Proof.
  apply (add_returns_the_sum Node.runtime add_request (number_of_Z 2) (number_of_Z 5));
    try reflexivity; discriminate.
Defined.

(** *** Arguments beyond the schema *)

(** A schema without optional fields reads its input through the values
    of its own keys only. *)
Fixpoint no_optional (schema : object_schema) : bool :=
  match schema with
  | [] => true
  | (_, ZOptional _) :: _ => false
  | _ :: rest => no_optional rest
  end.

Lemma parse_shape_agrees (schema : object_schema) (first second : value) :
  no_optional schema = true ->
  (forall key, In key (map fst schema) -> get_prop first key = get_prop second key) ->
  parse_shape schema first = parse_shape schema second.
Proof.
  induction schema as [|[key f] schema IH]; intros Hno Hsame; [reflexivity|].
  cbn [parse_shape].
  rewrite IH, (Hsame key) by (try (intros k Hk; apply Hsame; now right);
                               try (now left); now destruct f).
  destruct (parse_shape schema second) as [issues props].
  destruct f as [min| |inner]; [| |discriminate Hno]; cbn [parse_field].
  - destruct (get_prop second key) as [| | | |s| |]; try reflexivity.
    destruct min as [n|]; [destruct (length s <? n)%nat|]; reflexivity.
  - destruct (get_prop second key) as [| | |[]| | |]; reflexivity.
Qed.

(** X5.  What the simple server answers to a [tool.call] depends on the
    arguments only through the properties the schema of the tool names:
    two argument objects that agree on them get the same answer, whatever
    else they hold. *)
Theorem extra_arguments_are_ignored (R : Runtime) (id : value) (name : string)
    (t : SimpleServer.tool) (first second : list (jsstring * value)) :
  assoc (lit name) SimpleServer.tools = Some t ->
  (forall key, In key (map fst (SimpleServer.schema t)) ->
               get_prop (JObj first) key = get_prop (JObj second) key) ->
  SimpleServer.handleRequest (request id "tool.call" (call name (JObj first)))
  = SimpleServer.handleRequest (request id "tool.call" (call name (JObj second))).
Proof.
  intros Ht Hsame.
  assert (Hno : no_optional (SimpleServer.schema t) = true).
  { apply assoc_In in Ht. destruct Ht as [[= _ <-]|[[= _ <-]|[]]]; reflexivity. }
  assert (Hparse : parse (SimpleServer.schema t) (JObj first)
                   = parse (SimpleServer.schema t) (JObj second)).
  { unfold parse, safeParse. now rewrite (parse_shape_agrees _ _ _ Hno Hsame). }
  unfold SimpleServer.handleRequest.
  rewrite !simple_tool_call by reflexivity.
  cbv zeta.
  change (get_prop (or_empty_object (get_prop (request id "tool.call" (call name (JObj first)))
                                       (lit "params"))) (lit "name"))
    with (JStr (lit name)).
  change (get_prop (or_empty_object (get_prop (request id "tool.call" (call name (JObj second)))
                                       (lit "params"))) (lit "name"))
    with (JStr (lit name)).
  change (get_prop (or_empty_object (get_prop (request id "tool.call" (call name (JObj first)))
                                       (lit "params"))) (lit "arguments"))
    with (JObj first).
  change (get_prop (or_empty_object (get_prop (request id "tool.call" (call name (JObj second)))
                                       (lit "params"))) (lit "arguments"))
    with (JObj second).
  change (get_prop (request id "tool.call" (call name (JObj first))) (lit "id")) with id.
  change (get_prop (request id "tool.call" (call name (JObj second))) (lit "id")) with id.
  unfold registry_get. cbn [ToString]. rewrite Ht. cbn [lift bind].
  now rewrite Hparse.
Qed.

Lemma extra_arguments_are_ignored_witness :
  let id := JNum (number_of_Z 1) in
  SimpleServer.handleRequest (R := Node.runtime)
    (request id "tool.call" (call "echo" (JObj [(lit "message", JStr (lit "hi"))])))
  = SimpleServer.handleRequest (R := Node.runtime)
      (request id "tool.call"
         (call "echo" (JObj [(lit "verbose", JBool true);
                             (lit "message", JStr (lit "hi"))]))).
Proof.
  intros id.
  apply (extra_arguments_are_ignored Node.runtime id "echo" SimpleServer.echo).
  - reflexivity.
  - intros key [<-|[]]. reflexivity.
Defined.

(** *** What is advertised can be invoked *)

(** The items list the entries of the registry, one for one and in
    order, each under its name and with its description, and each entry
    can be invoked under its name. *)
Definition advertised {A} (registry : list (jsstring * A)) (description_of : A -> jsstring)
    (invocable : jsstring -> A -> Prop) (items : list value) : Prop :=
  Forall2 (fun entry item =>
             get_prop item (lit "name") = JStr (fst entry)
             /\ get_prop item (lit "description") = JStr (description_of (snd entry))
             /\ invocable (fst entry) (snd entry))
    registry items.

(** Every [tool.call] of the name, whatever else the request holds,
    reaches the tool: it is answered with what the handler of the tool
    returns on the parsed arguments, or with the issues of its schema. *)
Definition simple_callable {R : Runtime} (name : jsstring) (t : SimpleServer.tool) : Prop :=
  forall call : value,
    let id := get_prop call (lit "id") in
    let params := or_empty_object (get_prop call (lit "params")) in
    get_prop call (lit "method") = JStr (lit "tool.call") ->
    get_prop params (lit "name") = JStr name ->
    match safeParse (SimpleServer.schema t) (get_prop params (lit "arguments")) with
    | inr parsed =>
        exists result,
          SimpleServer.handler t parsed = inr result
          /\ SimpleServer.handleRequest call
             = [SimpleServer.send (result_envelope id result)]
    | inl issues =>
        SimpleServer.handleRequest call
        = [SimpleServer.send (invalid_params_envelope id issues)]
    end.

Definition prompts_callable {R : Runtime} (name : jsstring) (t : PromptsServer.tool) : Prop :=
  forall call : value,
    let id := get_prop call (lit "id") in
    let params := or_empty_object (get_prop call (lit "params")) in
    get_prop call (lit "method") = JStr (lit "tool.call") ->
    get_prop params (lit "name") = JStr name ->
    match safeParse (PromptsServer.schema t) (get_prop params (lit "arguments")) with
    | inr parsed =>
        exists result,
          PromptsServer.handler t parsed = inr result
          /\ PromptsServer.handleRequest call
             = [PromptsServer.send (result_envelope id result)]
    | inl issues =>
        PromptsServer.handleRequest call
        = [PromptsServer.send (zod_message_envelope id issues)]
    end.

(** Every [prompts.build] of the name reaches the prompt: it is answered
    with the template rendered on the parsed variables, or with the
    issues of its schema. *)
Definition prompts_buildable {R : Runtime} (name : jsstring) (p : PromptsServer.prompt)
    : Prop :=
  forall build : value,
    let id := get_prop build (lit "id") in
    let params := or_empty_object (get_prop build (lit "params")) in
    get_prop build (lit "method") = JStr (lit "prompts.build") ->
    get_prop params (lit "name") = JStr name ->
    match safeParse (PromptsServer.inputSchema p)
            (or_empty_object (get_prop params (lit "variables"))) with
    | inr parsed =>
        exists rendered,
          Mustache.render (PromptsServer.template p) parsed = inr rendered
          /\ PromptsServer.handleRequest build
             = [PromptsServer.send
                  (result_envelope id (JObj [(lit "prompt", JStr rendered)]))]
    | inl issues =>
        PromptsServer.handleRequest build
        = [PromptsServer.send (zod_message_envelope id issues)]
    end.

Section Invocable.
Context {R : Runtime}.

Lemma simple_registered_resolves (name : jsstring) (t : SimpleServer.tool) :
  In (name, t) SimpleServer.tools ->
  registry_get SimpleServer.tools (JStr name) = inr (Own t).
Proof. intros [[= <- <-]|[[= <- <-]|[]]]; reflexivity. Qed.

Lemma prompts_registered_resolves (name : jsstring) (t : PromptsServer.tool) :
  In (name, t) PromptsServer.tools ->
  registry_get PromptsServer.tools (JStr name) = inr (Own t).
Proof. intros [[= <- <-]|[]]; reflexivity. Qed.

Lemma template_registered_resolves (name : jsstring) (p : PromptsServer.prompt) :
  In (name, p) PromptsServer.promptTemplates ->
  registry_get PromptsServer.promptTemplates (JStr name) = inr (Own p).
Proof. intros [[= <- <-]|[[= <- <-]|[]]]; reflexivity. Qed.

Lemma simple_registered_callable (name : jsstring) (t : SimpleServer.tool) :
  In (name, t) SimpleServer.tools -> simple_callable name t.
Proof.
  intros Hin call id params Hmethod Hname.
  unfold SimpleServer.handleRequest. rewrite (simple_tool_call _ Hmethod).
  cbv zeta. fold params. rewrite Hname, (simple_registered_resolves _ _ Hin).
  cbn [lift bind]. unfold parse.
  destruct (safeParse _ _) as [issues|parsed] eqn:Hparse; [reflexivity|].
  destruct (simple_handler_total _ t _ parsed Hin Hparse) as (props & _ & Hh).
  exists (JObj props). split; [exact Hh|]. cbn [bind ret]. now rewrite Hh.
Qed.

Lemma prompts_registered_callable (name : jsstring) (t : PromptsServer.tool) :
  In (name, t) PromptsServer.tools -> prompts_callable name t.
Proof.
  intros Hin call id params Hmethod Hname.
  unfold PromptsServer.handleRequest. rewrite (prompts_tool_call _ Hmethod).
  cbv zeta. fold params. rewrite Hname, (prompts_registered_resolves _ _ Hin).
  cbn [lift bind]. unfold parse.
  destruct (safeParse _ _) as [issues|parsed] eqn:Hparse; [reflexivity|].
  destruct (prompts_handler_total _ t _ parsed Hin Hparse) as (props & _ & Hh).
  exists (JObj props). split; [exact Hh|]. cbn [bind ret]. now rewrite Hh.
Qed.

(** The templates of the registry render on whatever their schemas let
    through: a string, or nothing at all for an optional variable. *)
Lemma prompts_render_total (name : jsstring) (p : PromptsServer.prompt)
    (data parsed : value) :
  In (name, p) PromptsServer.promptTemplates ->
  safeParse (PromptsServer.inputSchema p) data = inr parsed ->
  exists rendered, Mustache.render (PromptsServer.template p) parsed = inr rendered.
Proof.
  intros [[= <- <-]|[[= <- <-]|[]]];
    cbn [PromptsServer.inputSchema PromptsServer.qa_basic PromptsServer.refactor_function];
    unfold safeParse; (destruct data as [| | | | | |props]; try discriminate);
    cbn [parse_shape parse_field].
  - destruct (get_prop (JObj props) (lit "context")) as [| | | |context| |];
      destruct (get_prop (JObj props) (lit "question")) as [| | | |question| |];
      try discriminate;
      [destruct (has_prop (JObj props) (lit "context"))|];
      intros [= <-]; eexists; vm_compute; reflexivity.
  - destruct (get_prop (JObj props) (lit "goal")) as [| | | |goal| |];
      destruct (get_prop (JObj props) (lit "code")) as [| | | |code| |];
      try discriminate;
      intros [= <-]; eexists; vm_compute; reflexivity.
Qed.

Lemma template_registered_buildable (name : jsstring) (p : PromptsServer.prompt) :
  In (name, p) PromptsServer.promptTemplates -> prompts_buildable name p.
Proof.
  intros Hin build id params Hmethod Hname.
  unfold PromptsServer.handleRequest. rewrite (prompts_build _ Hmethod).
  cbv zeta. fold params. rewrite Hname, (template_registered_resolves _ _ Hin).
  cbn [lift bind]. unfold parse.
  destruct (safeParse _ _) as [issues|parsed] eqn:Hparse; [reflexivity|].
  destruct (prompts_render_total _ p _ parsed Hin Hparse) as (rendered & Hr).
  exists rendered. split; [exact Hr|]. cbn [bind ret]. now rewrite Hr.
Qed.

End Invocable.

(** X6.  Every [capability.list] request, whatever its [id] and whatever
    else it holds, is answered with the entries of the registries, one
    item for each entry and in their order, under its name and with its
    description, and every [prompts.list] request with the same items for
    the prompts.  Every name so advertised can be invoked: a [tool.call]
    or [prompts.build] of it is never answered as unknown, but with what
    the advertised entry makes of the arguments or with the issues of its
    schema.  In the simple server every tool is listed with the empty
    object as its [inputSchema]. *)
Theorem advertised_names_resolve (R : Runtime) (listing index : value) :
  get_prop listing (lit "method") = JStr (lit "capability.list") ->
  get_prop index (lit "method") = JStr (lit "prompts.list") ->
  (exists items,
     SimpleServer.handleRequest listing
     = [SimpleServer.send
          (result_envelope (get_prop listing (lit "id"))
             (JObj [(lit "tools", JArr items)]))]
     /\ advertised SimpleServer.tools SimpleServer.description simple_callable items
     /\ Forall (fun item => get_prop item (lit "inputSchema") = JObj []) items)
  /\ (exists tools prompts,
        PromptsServer.handleRequest listing
        = [PromptsServer.send
             (result_envelope (get_prop listing (lit "id"))
                (JObj [(lit "tools", JArr tools); (lit "prompts", JArr prompts)]))]
        /\ PromptsServer.handleRequest index
           = [PromptsServer.send
                (result_envelope (get_prop index (lit "id")) (JArr prompts))]
        /\ advertised PromptsServer.tools PromptsServer.description prompts_callable tools
        /\ advertised PromptsServer.promptTemplates PromptsServer.prompt_description
             prompts_buildable prompts).
Proof.
  intros Hlisting Hindex.
  destruct listing; try discriminate Hlisting. destruct index; try discriminate Hindex.
  split.
  - unfold SimpleServer.handleRequest, SimpleServer.respond, SimpleServer.dispatch.
    cbv beta iota delta [nullish]. rewrite Hlisting.
    unfold SimpleServer.listCapabilities, SimpleServer.tools, SimpleServer.describe,
      SimpleServer.placeholder_schema.
    rewrite JSON_parse_empty_object.
    eexists. split; [reflexivity|].
    split; [|repeat constructor].
    repeat constructor; apply simple_registered_callable; cbn; auto.
  - exists PromptsServer.list_tools, PromptsServer.list_prompts.
    unfold PromptsServer.handleRequest, PromptsServer.respond, PromptsServer.dispatch.
    cbv beta iota delta [nullish]. rewrite Hlisting, Hindex.
    split; [reflexivity|]. split; [reflexivity|].
    split; repeat constructor;
      try (apply prompts_registered_callable; cbn; auto);
      apply template_registered_buildable; cbn; auto.
Qed.

Lemma advertised_names_resolve_witness :
  let index := request (JNum (number_of_Z 2)) "prompts.list" JUndefined in
  (exists items,
     SimpleServer.handleRequest (R := Node.runtime) (list_request 1)
     = [SimpleServer.send (R := Node.runtime)
          (result_envelope (JNum (number_of_Z 1)) (JObj [(lit "tools", JArr items)]))]
     /\ advertised (SimpleServer.tools (R := Node.runtime)) SimpleServer.description
          (simple_callable (R := Node.runtime)) items
     /\ Forall (fun item => get_prop item (lit "inputSchema") = JObj []) items)
  /\ (exists tools prompts,
        PromptsServer.handleRequest (R := Node.runtime) (list_request 1)
        = [PromptsServer.send (R := Node.runtime)
             (result_envelope (JNum (number_of_Z 1))
                (JObj [(lit "tools", JArr tools); (lit "prompts", JArr prompts)]))]
        /\ PromptsServer.handleRequest (R := Node.runtime) index
           = [PromptsServer.send (R := Node.runtime)
                (result_envelope (JNum (number_of_Z 2)) (JArr prompts))]
        /\ advertised PromptsServer.tools PromptsServer.description
             (prompts_callable (R := Node.runtime)) tools
        /\ advertised PromptsServer.promptTemplates PromptsServer.prompt_description
             (prompts_buildable (R := Node.runtime)) prompts).
Proof.
  intros index.
  apply (advertised_names_resolve Node.runtime (list_request 1) index); reflexivity.
Defined.

(** *** Lines and what they make a server write *)

Section Lines.
Context {R : Runtime}.

Lemma simple_handleRequest_cases (message : value) :
  (nullish message = true /\ SimpleServer.handleRequest message = [])
  \/ (nullish message = false
      /\ exists envelope, SimpleServer.handleRequest message = [SimpleServer.send envelope]).
Proof.
  destruct (nullish message) eqn:Hn.
  - left. split; [reflexivity|].
    unfold SimpleServer.handleRequest, SimpleServer.respond. now rewrite Hn.
  - right. split; [reflexivity|].
    destruct (simple_respond_shape message Hn) as (envelope & H & _).
    exists envelope. unfold SimpleServer.handleRequest. now rewrite H.
Qed.

Lemma prompts_handleRequest_cases (message : value) :
  (nullish message = true /\ PromptsServer.handleRequest message = [])
  \/ (nullish message = false
      /\ exists envelope, PromptsServer.handleRequest message = [PromptsServer.send envelope]).
Proof.
  destruct (nullish message) eqn:Hn.
  - left. split; [reflexivity|].
    unfold PromptsServer.handleRequest, PromptsServer.respond. now rewrite Hn.
  - right. split; [reflexivity|].
    destruct (prompts_respond_shape message Hn) as (envelope & H & _).
    exists envelope. unfold PromptsServer.handleRequest. now rewrite H.
Qed.

End Lines.

(** X7.  A line makes a server write at most one chunk, and it writes
    none exactly when the line is blank or is the JSON text of [null]
    (a text [JSON.parse] reads as [null]). *)
Theorem line_is_silent_iff (R : Runtime) (nextId : number) (line : jsstring) :
  let quiet :=
    blank line = true
    \/ exists message, JSON_parse line = Some message /\ nullish message = true in
  (snd (SimpleServer.on_line nextId line) = [] <-> quiet)
  /\ (PromptsServer.on_line line = [] <-> quiet)
  /\ length (snd (SimpleServer.on_line nextId line)) <= 1
  /\ length (PromptsServer.on_line line) <= 1.
Proof.
  intros quiet. unfold SimpleServer.on_line, PromptsServer.on_line.
  destruct (blank line) eqn:Hblank.
  - rewrite (trim_blank _ Hblank). cbn [snd length].
    assert (quiet) by now left.
    repeat split; auto.
  - destruct (not_blank_trim _ Hblank) as (c & rest & ->).
    assert (Hq : quiet <-> exists message,
                   JSON_parse line = Some message /\ nullish message = true).
    { unfold quiet. split; [intros [H|H]; [discriminate|exact H]|now right]. }
    destruct (JSON_parse line) as [message|] eqn:Hparse; cbn [snd].
    + destruct (simple_handleRequest_cases message) as [[Hn ->]|[Hn [es ->]]];
      destruct (prompts_handleRequest_cases message) as [[Hn' ->]|[Hn' [ep ->]]];
        try congruence; cbn [length]; rewrite Hq.
      * repeat split; auto; intros _; eauto.
      * repeat split; auto; try discriminate;
          intros (m & [= <-] & Hm); congruence.
    + cbn [length]. rewrite Hq.
      repeat split; auto; try discriminate; intros (m & Hm & _); discriminate.
Qed.

Lemma result_for_keys (id envelope : value) :
  result_for id envelope -> written_keys envelope = envelope_keys id "result".
Proof.
  intros (result & Hresult & ->).
  destruct id, result; try reflexivity; now destruct Hresult.
Qed.

Lemma error_for_keys (id envelope : value) :
  error_for id envelope -> written_keys envelope = envelope_keys id "error".
Proof. intros (props & ->). now destruct id. Qed.

(** X8.  A message other than [null], whatever its type and its content,
    is answered by each server with exactly one envelope, which is the
    object [{ jsonrpc, id, result }] or the object [{ jsonrpc, id, error }]
    for the [id] of the message.  Its text has the members [jsonrpc], [id]
    and [result], or [jsonrpc], [id] and [error], in this order and no
    others, and is without [id] when the message has none. *)
Theorem message_is_answered_once (R : Runtime) (message : value) :
  nullish message = false ->
  let id := get_prop message (lit "id") in
  (exists envelope,
     SimpleServer.respond message = inr envelope
     /\ SimpleServer.handleRequest message = [SimpleServer.send envelope]
     /\ ((result_for id envelope /\ written_keys envelope = envelope_keys id "result")
         \/ (error_for id envelope /\ written_keys envelope = envelope_keys id "error")))
  /\ (exists envelope,
        PromptsServer.respond message = inr envelope
        /\ PromptsServer.handleRequest message = [PromptsServer.send envelope]
        /\ ((result_for id envelope /\ written_keys envelope = envelope_keys id "result")
            \/ (error_for id envelope /\ written_keys envelope = envelope_keys id "error"))).
Proof.
  intros Hmsg id. split.
  - destruct (simple_respond_shape message Hmsg) as (envelope & Hr & Hshape).
    exists envelope. unfold SimpleServer.handleRequest. rewrite Hr.
    split; [reflexivity|]. split; [reflexivity|].
    destruct Hshape as [H|H];
      [left; split; [exact H|now apply result_for_keys]
      |right; split; [exact H|now apply error_for_keys]].
  - destruct (prompts_respond_shape message Hmsg) as (envelope & Hr & Hshape).
    exists envelope. unfold PromptsServer.handleRequest. rewrite Hr.
    split; [reflexivity|]. split; [reflexivity|].
    destruct Hshape as [H|H];
      [left; split; [exact H|now apply result_for_keys]
      |right; split; [exact H|now apply error_for_keys]].
Qed.

Lemma message_is_answered_once_witness :
  let message := JArr [JStr (lit "tool.call")] in
  let id := JUndefined in
  (exists envelope,
     SimpleServer.respond (R := Node.runtime) message = inr envelope
     /\ SimpleServer.handleRequest (R := Node.runtime) message
        = [SimpleServer.send (R := Node.runtime) envelope]
     /\ ((result_for id envelope /\ written_keys envelope = envelope_keys id "result")
         \/ (error_for id envelope /\ written_keys envelope = envelope_keys id "error")))
  /\ (exists envelope,
        PromptsServer.respond (R := Node.runtime) message = inr envelope
        /\ PromptsServer.handleRequest (R := Node.runtime) message
           = [PromptsServer.send (R := Node.runtime) envelope]
        /\ ((result_for id envelope /\ written_keys envelope = envelope_keys id "result")
            \/ (error_for id envelope /\ written_keys envelope = envelope_keys id "error"))).
Proof.
  apply (message_is_answered_once Node.runtime (JArr [JStr (lit "tool.call")])).
  reflexivity.
Defined.

(** *** The counter of the simple server *)

Section Counter.
Context {R : Runtime}.






End Counter.



(** *** One line for each envelope *)

(** A text without a line feed. *)
Definition clean (s : jsstring) : Prop := Forall (fun c => c <> 10%N) s.

Lemma clean_app (a b : jsstring) : clean a -> clean b -> clean (a ++ b).
Proof. intros Ha Hb. apply Forall_app. now split. Qed.

Lemma clean_not_In (s : jsstring) : clean s -> ~ In 10%N s.
Proof. intros H Hin. now apply (proj1 (Forall_forall _ _) H _ Hin). Qed.

Lemma clean_join (sep : jsstring) (parts : list jsstring) :
  clean sep -> Forall clean parts -> clean (join sep parts).
Proof.
  intros Hsep Hparts. induction Hparts as [|x parts Hx Hparts IH]; [constructor|].
  destruct parts as [|y parts]; [exact Hx|].
  change (join sep (x :: y :: parts)) with (x ++ sep ++ join sep (y :: parts)).
  auto using clean_app.
Qed.

Lemma value_nested_ind (P : value -> Prop) :
  P JUndefined -> P JNull -> (forall b, P (JBool b)) -> (forall n, P (JNum n)) ->
  (forall s, P (JStr s)) ->
  (forall items, Forall P items -> P (JArr items)) ->
  (forall props, Forall (fun entry => P (snd entry)) props -> P (JObj props)) ->
  forall v, P v.
Proof.
  intros Hu Hn Hb Hnum Hs Harr Hobj. fix IH 1.
  intros [| |b|n|s|items|props];
    [exact Hu|exact Hn|apply Hb|apply Hnum|apply Hs| |].
  - apply Harr. induction items as [|x items IHitems]; constructor; [apply IH|exact IHitems].
  - apply Hobj. induction props as [|[k x] props IHprops]; constructor;
      [apply IH|exact IHprops].
Qed.

Lemma hex_digit_not_newline (n : N) : hex_digit n <> 10%N.
Proof. unfold hex_digit. destruct (n <? 10)%N; lia. Qed.

Lemma clean_unicode_escape (c : code_unit) : clean (unicode_escape c).
Proof.
  unfold unicode_escape.
  apply clean_app; [repeat constructor; discriminate|].
  repeat constructor; apply hex_digit_not_newline.
Qed.

Lemma clean_quote_unit (c : code_unit) : clean (quote_unit c).
Proof.
  unfold quote_unit.
  destruct (c =? 8)%N; [repeat constructor; discriminate|].
  destruct (c =? 9)%N; [repeat constructor; discriminate|].
  destruct (c =? 10)%N eqn:Hc; [repeat constructor; discriminate|].
  destruct (c =? 12)%N; [repeat constructor; discriminate|].
  destruct (c =? 13)%N; [repeat constructor; discriminate|].
  destruct (c =? 34)%N; [repeat constructor; discriminate|].
  destruct (c =? 92)%N; [repeat constructor; discriminate|].
  destruct (_ || _); [apply clean_unicode_escape|].
  repeat constructor. now apply N.eqb_neq.
Qed.

Lemma clean_quote_units (s : jsstring) : clean (quote_units s).
Proof.
  assert (H : forall n s, length s <= n -> clean (quote_units s)).
  { clear s. induction n as [|n IH]; intros [|c rest] Hlen; cbn [length] in Hlen;
      try lia; try (now constructor).
    cbn [quote_units]. destruct rest as [|d rest]; [apply clean_quote_unit|].
    cbn [length] in Hlen.
    destruct (is_lead_surrogate c && is_trail_surrogate d) eqn:Hpair.
    - apply andb_true_iff in Hpair as [Hc Hd].
      unfold is_lead_surrogate in Hc. unfold is_trail_surrogate in Hd.
      constructor; [intros ->; discriminate|].
      constructor; [intros ->; discriminate|].
      apply IH. lia.
    - apply clean_app; [apply clean_quote_unit|].
      apply IH. cbn [length]. lia. }
  now apply (H (length s)).
Qed.

Lemma clean_quote (s : jsstring) : clean (quote s).
Proof.
  unfold quote. apply clean_app; [repeat constructor; discriminate|].
  apply clean_app; [apply clean_quote_units|repeat constructor; discriminate].
Qed.

Ltac clean_literal := repeat constructor; discriminate.

Ltac clean_wrapped :=
  match goal with
  | Hparts : Forall clean ?p |- clean (match ?p with _ => _ end) =>
      destruct p;
      [clean_literal
      |constructor; [discriminate|];
       apply clean_app; [apply clean_join; [clean_literal|exact Hparts]|clean_literal]]
  end.

Section OneLine.
Context {R : Runtime}.
Hypothesis numbers_are_clean : forall n, clean (Number_toString n).

Lemma clean_serialize (v : value) :
  forall indent text, serialize [] indent v = Some text -> clean text.
Proof.
  induction v as [| |b|n|s|items IH|props IH] using value_nested_ind;
    intros indent text; cbn [serialize].
  - discriminate.
  - intros [= <-]. clean_literal.
  - destruct b; intros [= <-]; clean_literal.
  - intros [= <-]. destruct (is_finite n); [apply numbers_are_clean|clean_literal].
  - intros [= <-]. apply clean_quote.
  - intros [= <-].
    match goal with
    | |- clean (match ?p with _ => _ end) => assert (Hparts : Forall clean p)
    end.
    { induction IH as [|x items Hx _ IHitems]; constructor; [|exact IHitems].
      destruct (serialize [] (indent ++ []) x) as [text|] eqn:Hs;
        [now apply (Hx _ _ Hs)|clean_literal]. }
    clean_wrapped.
  - intros [= <-].
    match goal with
    | |- clean (match ?p with _ => _ end) => assert (Hparts : Forall clean p)
    end.
    { induction IH as [|[k x] props Hx _ IHprops]; [constructor|].
      cbn [snd] in Hx.
      destruct (serialize [] (indent ++ []) x) as [text|] eqn:Hs; [|exact IHprops].
      constructor; [|exact IHprops].
      constructor; [discriminate|].
      apply clean_app; [apply clean_app; [apply clean_quote_units|clean_literal]|].
      constructor; [discriminate|]. now apply (Hx _ _ Hs). }
    clean_wrapped.
Qed.

Lemma single_line_send (envelope : value) :
  single_line (JSON_stringify envelope ++ [10%N]).
Proof.
  exists (JSON_stringify envelope). split; [reflexivity|].
  apply clean_not_In. unfold JSON_stringify.
  destruct (serialize [] [] envelope) as [text|] eqn:Hs;
    [now apply (clean_serialize _ _ _ Hs)|clean_literal].
Qed.

End OneLine.

(** The printer of the executable runtime never prints a line feed. *)
Lemma clean_decimal_digits_aux (fuel : nat) (n : Z) (acc : jsstring) :
  clean acc -> clean (Node.decimal_digits_aux fuel n acc).
Proof.
  revert n acc. induction fuel as [|fuel IH]; intros n acc Hacc; [exact Hacc|].
  cbn [Node.decimal_digits_aux].
  assert (Hdigit : clean (Z.to_N (48 + n mod 10) :: acc)).
  { constructor; [|exact Hacc]. pose proof (Z.mod_pos_bound n 10). lia. }
  destruct (n <? 10)%Z; [exact Hdigit|now apply IH].
Qed.

Lemma clean_decimal_digits (n : Z) : clean (Node.decimal_digits n).
Proof. apply clean_decimal_digits_aux. constructor. Qed.

Lemma clean_zeros (n : Z) : clean (Node.zeros n).
Proof.
  unfold Node.zeros. induction (Z.to_nat n) as [|k IH]; constructor;
    [discriminate|exact IH].
Qed.

Lemma clean_layout (ds : jsstring) (n : Z) : clean ds -> clean (Node.layout ds n).
Proof.
  intros Hds. unfold Node.layout.
  assert (Hsplit : forall k, clean (firstn k ds) /\ clean (skipn k ds)).
  { intros k. apply Forall_app. now rewrite firstn_skipn. }
  destruct (_ && _); [apply clean_app; [exact Hds|apply clean_zeros]|].
  destruct (_ && _).
  { destruct (Hsplit (Z.to_nat n)) as [Hf Hs].
    apply clean_app; [exact Hf|]. apply clean_app; [clean_literal|exact Hs]. }
  destruct (_ && _).
  { apply clean_app; [clean_literal|]. apply clean_app; [apply clean_zeros|exact Hds]. }
  assert (He : clean ((if (0 <=? n - 1)%Z then lit "+" else lit "-")
                      ++ Node.decimal_digits (Z.abs (n - 1)))).
  { apply clean_app; [destruct (0 <=? n - 1)%Z; clean_literal|apply clean_decimal_digits]. }
  destruct ds as [|d [|d' more]]; [constructor| |].
  - apply clean_app; [exact Hds|]. apply clean_app; [clean_literal|exact He].
  - inversion Hds as [|? ? Hd Hmore]; subst.
    apply clean_app; [now repeat constructor|].
    apply clean_app; [clean_literal|].
    apply clean_app; [exact Hmore|]. apply clean_app; [clean_literal|exact He].
Qed.

Lemma clean_toString (x : number) : clean (Node.toString x).
Proof.
  assert (Hpos : forall m e, clean (Node.positive_to_string m e)).
  { intros m e. unfold Node.positive_to_string.
    destruct (if (0 <=? e)%Z then _ else _) as [num den].
    destruct (Node.shortest _ _ _ _ _ _) as [s e10].
    destruct (Node.strip_zeros _ _ _) as [s' e10'].
    apply clean_layout, clean_decimal_digits. }
  destruct x as [s|[]| |[] m e]; cbn [Node.toString]; try clean_literal;
    [apply clean_app; [clean_literal|apply Hpos]|apply Hpos].
Qed.

(** X10.  Each chunk a server writes is one line: the JSON text of the
    envelope, which holds no line feed whatever strings the envelope
    carries, and the line feed that ends it.  The one assumption is on the
    platform: the text of a number holds no line feed. *)
Theorem chunk_is_single_line (R : Runtime) (nextId : number) (line chunk : jsstring) :
  (forall n, ~ In 10%N (Number_toString n)) ->
  In chunk (snd (SimpleServer.on_line nextId line)) \/ In chunk (PromptsServer.on_line line) ->
  single_line chunk.
Proof.
  intros Hnum Hin.
  assert (Hclean : forall n, clean (Number_toString n)).
  { intros n. apply Forall_forall. intros c Hc ->. exact (Hnum n Hc). }
  assert (Hsimple : forall message c,
             In c (SimpleServer.handleRequest message) -> single_line c).
  { intros message c Hc.
    destruct (simple_handleRequest_cases message) as [[_ H]|[_ [envelope H]]];
      rewrite H in Hc; [destruct Hc|].
    destruct Hc as [<-|[]]. now apply single_line_send. }
  assert (Hprompts : forall message c,
             In c (PromptsServer.handleRequest message) -> single_line c).
  { intros message c Hc.
    destruct (prompts_handleRequest_cases message) as [[_ H]|[_ [envelope H]]];
      rewrite H in Hc; [destruct Hc|].
    destruct Hc as [<-|[]]. now apply single_line_send. }
  destruct Hin as [H|H].
  - unfold SimpleServer.on_line in H.
    destruct (trim line); [destruct H|].
    destruct (JSON_parse line) as [message|]; cbn [snd] in H; [now apply (Hsimple message)|].
    destruct H as [<-|[]]. now apply single_line_send.
  - unfold PromptsServer.on_line in H.
    destruct (trim line); [destruct H|].
    destruct (JSON_parse line) as [message|]; [now apply (Hprompts message)|].
    destruct H as [<-|[]]. now apply single_line_send.
Qed.

Lemma chunk_is_single_line_witness :
  single_line
    (json_text "{'jsonrpc':'2.0','id':1,'result':{'echoed':'two\nlines','length':9}}"
       ++ [10%N]).
Proof.
  apply (chunk_is_single_line Node.runtime SimpleServer.initial_nextId
           (json_text "{'jsonrpc':'2.0','id':1,'method':'tool.call','params':{'name':'echo','arguments':{'message':'two\nlines'}}}")).
  - intros n. apply clean_not_In, clean_toString.
  - left. vm_compute. left. reflexivity.
Defined.

(** *** The codes of the errors *)

(** The envelope for the request [id] is a result, or it is an error
    whose object holds a [code] of the list, a string for its [message]
    and at most a [data] besides. *)
Definition well_coded (codes : list value) (id envelope : value) : Prop :=
  result_for id envelope
  \/ exists code text rest,
       In code codes
       /\ (rest = [] \/ exists data, rest = [(lit "data", data)])
       /\ envelope
          = error_envelope id
              (JObj ((lit "code", code) :: (lit "message", JStr text) :: rest)).

Section Codes.
Context {R : Runtime}.

Lemma simple_report_well_coded (id : value) (err : exn) :
  well_coded simple_codes id (SimpleServer.report id err).
Proof.
  destruct err; right; do 3 eexists;
    (split; [|split; [|reflexivity]]); cbn; eauto.
Qed.

Lemma prompts_report_well_coded (id : value) (err : exn) :
  well_coded prompts_codes id (PromptsServer.report id err).
Proof.
  right. do 3 eexists. split; [|split; [|reflexivity]]; cbn; eauto.
Qed.

Lemma simple_sends_well_coded (nextId : number) (line : jsstring) (envelope : value) :
  simple_sends nextId line envelope ->
  exists id, well_coded simple_codes id envelope.
Proof.
  intros [_ [(message & _ & Hr)|[_ ->]]].
  - unfold SimpleServer.respond in Hr.
    destruct (nullish message); [discriminate|].
    destruct (SimpleServer.dispatch _ _ _) as [err|answer] eqn:Hd;
      injection Hr as <-; eexists.
    + apply simple_report_well_coded.
    + left. eapply simple_dispatch_result, Hd.
  - eexists. right. do 3 eexists. split; [|split; [|reflexivity]]; cbn; eauto.
Qed.

Lemma prompts_sends_well_coded (line : jsstring) (envelope : value) :
  prompts_sends line envelope ->
  exists id, well_coded prompts_codes id envelope.
Proof.
  intros [_ [(message & _ & Hr)|[_ ->]]].
  - unfold PromptsServer.respond in Hr.
    destruct (nullish message); [discriminate|].
    destruct (PromptsServer.dispatch _ _ _) as [err|answer] eqn:Hd;
      injection Hr as <-; eexists.
    + apply prompts_report_well_coded.
    + left. eapply prompts_dispatch_result, Hd.
  - eexists. right. do 3 eexists. split; [|split; [|reflexivity]]; cbn; eauto.
Qed.

End Codes.

(** X11.  Every chunk a server writes is the text of the envelope the
    listener passes to [send], and that envelope is a result, or the
    object [{ jsonrpc, id, error }] whose [error] is the object
    [{ code, message }], with a [data] behind them or not, where the
    message is a string and the code is one of -32700, -32602 and -32000
    in the simple server, of -32700 and -32000 in the prompts server: no
    other code, -32601 for one, is ever sent. *)
Theorem error_codes_are_fixed (R : Runtime) (nextId : number) (line chunk : jsstring) :
  (In chunk (snd (SimpleServer.on_line nextId line)) ->
   exists id envelope,
     simple_sends nextId line envelope
     /\ chunk = SimpleServer.send envelope
     /\ well_coded simple_codes id envelope)
  /\ (In chunk (PromptsServer.on_line line) ->
      exists id envelope,
        prompts_sends line envelope
        /\ chunk = PromptsServer.send envelope
        /\ well_coded prompts_codes id envelope)
  /\ ~ In (JNum (number_of_Z (-32601))) (simple_codes ++ prompts_codes).
Proof.
  split; [|split]; intros H.
  - destruct (simple_line_sends _ _ _ H) as (envelope & Hsends & ->).
    destruct (simple_sends_well_coded _ _ _ Hsends) as (id & Hcoded).
    now exists id, envelope.
  - destruct (prompts_line_sends _ _ H) as (envelope & Hsends & ->).
    destruct (prompts_sends_well_coded _ _ Hsends) as (id & Hcoded).
    now exists id, envelope.
  - repeat (destruct H as [H|H]; [discriminate H|]). destruct H.
Qed.

Lemma error_codes_are_fixed_witness :
  let line := json_text "{'id':8,'method':'initialize'}" in
  let chunk :=
    json_text "{'jsonrpc':'2.0','id':8,'error':{'code':-32000,'message':'Method not found'}}"
      ++ [10%N] in
  (exists id envelope,
     simple_sends (R := Node.runtime) SimpleServer.initial_nextId line envelope
     /\ chunk = SimpleServer.send (R := Node.runtime) envelope
     /\ well_coded simple_codes id envelope)
  /\ (exists id envelope,
        prompts_sends (R := Node.runtime) line envelope
        /\ chunk = PromptsServer.send (R := Node.runtime) envelope
        /\ well_coded prompts_codes id envelope).
Proof.
  intros line chunk.
  destruct (error_codes_are_fixed Node.runtime SimpleServer.initial_nextId line chunk)
    as (Hsimple & Hprompts & _).
  split; [apply Hsimple|apply Hprompts]; vm_compute; left; reflexivity.
Defined.

(** *** The summary of the prompts server *)

(** A string without white space. *)
Definition solid (w : jsstring) : bool := forallb (fun c => negb (is_whitespace c)) w.

Lemma is_word_solid (w : jsstring) : is_word w = true -> w <> [] /\ solid w = true.
Proof. destruct w; [discriminate|]. intros H. split; [discriminate|exact H]. Qed.

Lemma split_pieces_solid (w : jsstring) :
  solid w = true ->
  forall piece s,
    split_pieces piece false (w ++ s) = split_pieces (rev w ++ piece) false s.
Proof.
  induction w as [|c w IH]; intros Hw piece s; [reflexivity|].
  cbn [solid forallb] in Hw. apply andb_true_iff in Hw as [Hc Hw].
  apply negb_true_iff in Hc.
  cbn [app split_pieces rev]. rewrite Hc, (IH Hw).
  now rewrite <- (app_assoc (rev w) [c] piece).
Qed.

Lemma split_pieces_word (w : jsstring) (in_run : bool) (s : jsstring) :
  is_word w = true ->
  split_pieces [] in_run (w ++ s) = split_pieces (rev w) false s.
Proof.
  intros Hw. destruct w as [|c w]; [discriminate|].
  cbn [is_word forallb] in Hw. apply andb_true_iff in Hw as [Hc Hw].
  apply negb_true_iff in Hc.
  cbn [app split_pieces rev]. rewrite Hc.
  now rewrite (split_pieces_solid w Hw).
Qed.

(** Words joined by single spaces split back into the words. *)
Lemma split_join (words : list jsstring) :
  words <> [] -> forallb is_word words = true ->
  forall in_run, split_pieces [] in_run (join (lit " ") words) = words.
Proof.
  induction words as [|w words IH]; intros Hne Hall in_run; [now destruct Hne|].
  cbn [forallb] in Hall. apply andb_true_iff in Hall as [Hw Hall].
  destruct words as [|w' words].
  - cbn [join]. rewrite <- (app_nil_r w) at 1.
    rewrite (split_pieces_word _ _ _ Hw). cbn [split_pieces]. now rewrite rev_involutive.
  - change (join (lit " ") (w :: w' :: words))
      with (w ++ 32%N :: join (lit " ") (w' :: words)).
    rewrite (split_pieces_word _ _ _ Hw).
    cbn [split_pieces]. change (is_whitespace 32%N) with true. cbv iota.
    rewrite rev_involutive. f_equal. apply IH; [discriminate|exact Hall].
Qed.

Lemma join_words_not_empty (words : list jsstring) :
  words <> [] -> forallb is_word words = true -> join (lit " ") words <> [].
Proof.
  destruct words as [|[|c w] words]; [now intros H|discriminate|].
  intros _ _. now destruct words.
Qed.

Lemma split_pieces_are_solid (s piece : jsstring) (in_run : bool) :
  solid piece = true ->
  Forall (fun p => solid p = true) (split_pieces piece in_run s).
Proof.
  revert piece in_run. induction s as [|c s IH]; intros piece in_run Hpiece.
  - constructor; [|constructor]. unfold solid in *.
    rewrite forallb_forall in *. intros x Hx. apply Hpiece. now apply in_rev.
  - cbn [split_pieces]. destruct (is_whitespace c) eqn:Hc.
    + destruct in_run; [now apply IH|].
      constructor; [|now apply IH].
      unfold solid in *. rewrite forallb_forall in *.
      intros x Hx. apply Hpiece. now apply in_rev.
    + apply IH. cbn [solid forallb]. now rewrite Hc.
Qed.

Lemma split_blank (s : jsstring) :
  s <> [] -> blank s = true -> split_whitespace s = [[]; []].
Proof.
  assert (Hrun : forall t, blank t = true -> split_pieces [] true t = [[]]).
  { induction t as [|c t IH]; [reflexivity|].
    intros H. apply andb_true_iff in H as [Hc Ht].
    cbn [split_pieces]. rewrite Hc. now apply IH. }
  destruct s as [|c s]; [now intros H|]. intros _ H.
  apply andb_true_iff in H as [Hc Hs].
  unfold split_whitespace. cbn [split_pieces]. rewrite Hc.
  now rewrite (Hrun s Hs).
Qed.

(** The answer to a call of [markdown_summary] with a content that is
    not empty. *)
Lemma summary_call {R : Runtime} (message : value) (content : jsstring) :
  let params := or_empty_object (get_prop message (lit "params")) in
  get_prop message (lit "method") = JStr (lit "tool.call") ->
  get_prop params (lit "name") = JStr (lit "markdown_summary") ->
  get_prop (get_prop params (lit "arguments")) (lit "content") = JStr content ->
  content <> [] ->
  PromptsServer.handleRequest message
  = [PromptsServer.send
       (result_envelope (get_prop message (lit "id"))
          (JObj [(lit "summary",
                  JStr (join (lit " ") (firstn 12 (split_whitespace content))
                        ++ lit "..."))]))].
Proof.
  intros params Hmethod Hname Hcontent Hne.
  unfold PromptsServer.handleRequest. rewrite (prompts_tool_call _ Hmethod).
  cbv zeta. fold params. rewrite Hname.
  change (registry_get PromptsServer.tools (JStr (lit "markdown_summary")))
    with (@inr native_error _ (Own PromptsServer.markdown_summary)).
  cbn [lift bind PromptsServer.schema PromptsServer.handler
         PromptsServer.markdown_summary].
  destruct (get_prop params (lit "arguments")) as [| | | | | |props] eqn:Hargs;
    try discriminate Hcontent.
  unfold parse, safeParse. cbn [parse_shape parse_field]. rewrite Hcontent.
  destruct content as [|c content]; [now destruct Hne|].
  reflexivity.
Qed.

(** X12.  [markdown_summary] on words separated by single spaces returns
    the first twelve of them, separated by single spaces and followed by
    three dots: a content of at most twelve words comes back whole. *)
Theorem summary_keeps_twelve_words (R : Runtime) (message : value)
    (words : list jsstring) :
  let params := or_empty_object (get_prop message (lit "params")) in
  get_prop message (lit "method") = JStr (lit "tool.call") ->
  get_prop params (lit "name") = JStr (lit "markdown_summary") ->
  get_prop (get_prop params (lit "arguments")) (lit "content")
  = JStr (join (lit " ") words) ->
  words <> [] ->
  forallb is_word words = true ->
  PromptsServer.handleRequest message
  = [PromptsServer.send
       (result_envelope (get_prop message (lit "id"))
          (JObj [(lit "summary",
                  JStr (join (lit " ") (firstn 12 words) ++ lit "..."))]))]
  /\ (length words <= 12 -> firstn 12 words = words).
Proof.
  intros params Hmethod Hname Hcontent Hne Hwords. split.
  - rewrite (summary_call message _ Hmethod Hname Hcontent
               (join_words_not_empty _ Hne Hwords)).
    unfold split_whitespace. now rewrite (split_join _ Hne Hwords).
  - apply firstn_all2.
Qed.

Lemma summary_keeps_twelve_words_witness :
  let id := JNum (number_of_Z 4) in
  let words := map lit ["a"; "b"; "c"; "d"; "e"; "f"; "g"; "h"; "i"; "j"; "k"; "l";
                        "m"; "n"]%string in
  PromptsServer.handleRequest (R := Node.runtime)
    (request id "tool.call"
       (call "markdown_summary" (JObj [(lit "content", JStr (join (lit " ") words))])))
  = [PromptsServer.send (R := Node.runtime)
       (result_envelope id
          (JObj [(lit "summary", JStr (lit "a b c d e f g h i j k l..."))]))].
Proof.
  intros id words.
  apply (proj1 (summary_keeps_twelve_words Node.runtime
                  (request id "tool.call"
                     (call "markdown_summary"
                        (JObj [(lit "content", JStr (join (lit " ") words))])))
                  words eq_refl eq_refl eq_refl ltac:(discriminate) eq_refl)).
Defined.

(** X13.  Whatever the content, the summary is at most twelve pieces
    without white space, separated by single spaces and followed by three
    dots: no tab or line break of the content reaches it.  A content of
    white space only is summarised as a space and three dots. *)
Theorem summary_is_normalised (R : Runtime) (message : value) (content : jsstring) :
  let params := or_empty_object (get_prop message (lit "params")) in
  get_prop message (lit "method") = JStr (lit "tool.call") ->
  get_prop params (lit "name") = JStr (lit "markdown_summary") ->
  get_prop (get_prop params (lit "arguments")) (lit "content") = JStr content ->
  content <> [] ->
  exists pieces,
    PromptsServer.handleRequest message
    = [PromptsServer.send
         (result_envelope (get_prop message (lit "id"))
            (JObj [(lit "summary", JStr (join (lit " ") pieces ++ lit "..."))]))]
    /\ length pieces <= 12
    /\ Forall (fun p => solid p = true) pieces
    /\ (blank content = true -> pieces = [[]; []]).
Proof.
  intros params Hmethod Hname Hcontent Hne.
  exists (firstn 12 (split_whitespace content)).
  split; [now apply summary_call|].
  split; [apply firstn_le_length|].
  split.
  - assert (H : Forall (fun p => solid p = true) (split_whitespace content))
      by now apply split_pieces_are_solid.
    rewrite <- (firstn_skipn 12 (split_whitespace content)) in H.
    now apply Forall_app in H.
  - intros Hblank. now rewrite (split_blank _ Hne Hblank).
Qed.

Lemma summary_is_normalised_witness :
  let id := JNum (number_of_Z 4) in
  exists pieces,
    PromptsServer.handleRequest (R := Node.runtime)
      (request id "tool.call"
         (call "markdown_summary" (JObj [(lit "content", JStr [9; 10; 32]%N)])))
    = [PromptsServer.send (R := Node.runtime)
         (result_envelope id
            (JObj [(lit "summary", JStr (join (lit " ") pieces ++ lit "..."))]))]
    /\ length pieces <= 12
    /\ Forall (fun p => solid p = true) pieces
    /\ (blank [9; 10; 32]%N = true -> pieces = [[]; []]).
Proof.
  intros id.
  apply (summary_is_normalised Node.runtime
           (request id "tool.call"
              (call "markdown_summary" (JObj [(lit "content", JStr [9; 10; 32]%N)])))
           [9; 10; 32]%N); try reflexivity.
  discriminate.
Defined.

(** *** Building a prompt *)

(** The characters [escapeHtml] replaces, the ampersand apart. *)
Definition markup : list code_unit := [60; 62; 34; 39; 47; 96; 61]%N.

Lemma escape_unit_has_no_markup (c : code_unit) :
  Forall (fun x => ~ In x markup) (Mustache.escape_unit c).
Proof.
  unfold Mustache.escape_unit.
  destruct (c =? 38)%N eqn:H38; [repeat constructor; cbn; intuition discriminate|].
  destruct (c =? 60)%N eqn:H60; [repeat constructor; cbn; intuition discriminate|].
  destruct (c =? 62)%N eqn:H62; [repeat constructor; cbn; intuition discriminate|].
  destruct (c =? 34)%N eqn:H34; [repeat constructor; cbn; intuition discriminate|].
  destruct (c =? 39)%N eqn:H39; [repeat constructor; cbn; intuition discriminate|].
  destruct (c =? 47)%N eqn:H47; [repeat constructor; cbn; intuition discriminate|].
  destruct (c =? 96)%N eqn:H96; [repeat constructor; cbn; intuition discriminate|].
  destruct (c =? 61)%N eqn:H61; [repeat constructor; cbn; intuition discriminate|].
  repeat constructor. cbn.
  apply N.eqb_neq in H60, H62, H34, H39, H47, H96, H61. intuition congruence.
Qed.

Lemma escapeHtml_has_no_markup (s : jsstring) :
  Forall (fun x => ~ In x markup) (Mustache.escapeHtml s).
Proof.
  unfold Mustache.escapeHtml. induction s as [|c s IH]; [constructor|].
  cbn [flat_map]. apply Forall_app. split; [apply escape_unit_has_no_markup|exact IH].
Qed.

Lemma qa_basic_render {R : Runtime} (view : value) (question : jsstring)
    (context : option jsstring) :
  get_prop view (lit "question") = JStr question ->
  get_prop view (lit "context")
  = match context with Some text => JStr text | None => JUndefined end ->
  Mustache.render (PromptsServer.template PromptsServer.qa_basic) view
  = inr (lit "You are a helpful system. Answer the user question." ++ [10%N]
         ++ lit "Context: "
         ++ Mustache.escapeHtml (match context with Some text => text | None => [] end)
         ++ [10%N]
         ++ lit "Question: " ++ Mustache.escapeHtml question ++ [10%N]
         ++ lit "Answer:").
Proof.
  intros Hq Hc. unfold Mustache.render.
  change (Mustache.parse (PromptsServer.template PromptsServer.qa_basic)) with
    (Some [Mustache.Text (lit "You are a helpful system. Answer the user question."
                            ++ [10%N] ++ lit "Context: ");
           Mustache.Name (lit "context");
           Mustache.Text ([10%N] ++ lit "Question: ");
           Mustache.Name (lit "question");
           Mustache.Text ([10%N] ++ lit "Answer:")]).
  cbn [Mustache.render_tokens Mustache.render_token]. rewrite Hq, Hc.
  destruct context as [text|]; cbn -[Mustache.escapeHtml app];
    now rewrite <- !app_assoc.
Qed.

(** X14.  [prompts.build] of [qa/basic] with a string for the question
    and a string or nothing for the context returns the template with the
    two values in the place of their tags, HTML-escaped: none of the
    characters [<], [>], the quotes, [/], the backquote and [=] of a value
    reaches the prompt, and a missing context leaves its place empty. *)
Theorem qa_basic_is_built_escaped (R : Runtime) (message : value) (question : jsstring)
    (context : option jsstring) :
  let params := or_empty_object (get_prop message (lit "params")) in
  let variables := or_empty_object (get_prop params (lit "variables")) in
  let shown := match context with Some text => text | None => [] end in
  get_prop message (lit "method") = JStr (lit "prompts.build") ->
  get_prop params (lit "name") = JStr (lit "qa/basic") ->
  get_prop variables (lit "question") = JStr question ->
  get_prop variables (lit "context")
  = match context with Some text => JStr text | None => JUndefined end ->
  PromptsServer.handleRequest message
  = [PromptsServer.send
       (result_envelope (get_prop message (lit "id"))
          (JObj [(lit "prompt",
                  JStr (lit "You are a helpful system. Answer the user question."
                        ++ [10%N]
                        ++ lit "Context: " ++ Mustache.escapeHtml shown ++ [10%N]
                        ++ lit "Question: " ++ Mustache.escapeHtml question ++ [10%N]
                        ++ lit "Answer:"))]))]
  /\ Forall (fun c => ~ In c markup) (Mustache.escapeHtml shown)
  /\ Forall (fun c => ~ In c markup) (Mustache.escapeHtml question).
Proof.
  intros params variables shown Hmethod Hname Hq Hc.
  split; [|split; apply escapeHtml_has_no_markup].
  unfold PromptsServer.handleRequest. rewrite (prompts_build _ Hmethod).
  cbv zeta. fold params. rewrite Hname.
  change (registry_get PromptsServer.promptTemplates (JStr (lit "qa/basic")))
    with (@inr native_error _ (Own PromptsServer.qa_basic)).
  cbn [lift bind]. fold variables.
  change (PromptsServer.inputSchema PromptsServer.qa_basic)
    with [(lit "question", ZString None); (lit "context", ZOptional (ZString None))].
  destruct variables as [| | | | | |props] eqn:Hvars; try discriminate Hq.
  unfold parse, safeParse. cbn [parse_shape parse_field]. rewrite Hq, Hc.
  destruct context as [text|]; cbn [parse_field bind ret].
  - rewrite (qa_basic_render _ question (Some text)) by reflexivity. reflexivity.
  - destruct (has_prop (JObj props) (lit "context"));
      rewrite (qa_basic_render _ question None) by reflexivity; reflexivity.
Qed.

Lemma qa_basic_is_built_escaped_witness :
  let id := JNum (number_of_Z 3) in
  PromptsServer.handleRequest (R := Node.runtime)
    (request id "prompts.build"
       (build "qa/basic" (JObj [(lit "question", JStr (lit "is a<b?"))])))
  = [PromptsServer.send (R := Node.runtime)
       (result_envelope id
          (JObj [(lit "prompt",
                  JStr (lit "You are a helpful system. Answer the user question."
                        ++ [10%N]
                        ++ lit "Context: " ++ [10%N]
                        ++ lit "Question: is a&lt;b?" ++ [10%N]
                        ++ lit "Answer:"))]))].
Proof.
  intros id.
  apply (proj1 (qa_basic_is_built_escaped Node.runtime
                  (request id "prompts.build"
                     (build "qa/basic" (JObj [(lit "question", JStr (lit "is a<b?"))])))
                  (lit "is a<b?") None eq_refl eq_refl eq_refl eq_refl)).
Defined.

(** *** Every field that fails *)

(** The issue of a field of [add], if it has one. *)
Definition number_issue (key : string) (v : value) : list issue :=
  match v with
  | JNum S754_nan => [invalid_type (lit "number") (parsed_type v) [lit key]]
  | JNum _ => []
  | _ => [invalid_type (lit "number") (parsed_type v) [lit key]]
  end.

(** X15.  A call of [add] is rejected as soon as one of [a] and [b] is
    not a number, with the code -32602 and an issue for each of the two
    that is not, [a] first: validation does not stop at the first field
    that fails. *)
Theorem add_reports_every_bad_field (R : Runtime) (message : value)
    (fields : list (jsstring * value)) :
  let id := get_prop message (lit "id") in
  let params := or_empty_object (get_prop message (lit "params")) in
  let issues :=
    number_issue "a" (get_prop (JObj fields) (lit "a"))
    ++ number_issue "b" (get_prop (JObj fields) (lit "b")) in
  get_prop message (lit "method") = JStr (lit "tool.call") ->
  get_prop params (lit "name") = JStr (lit "add") ->
  get_prop params (lit "arguments") = JObj fields ->
  issues <> [] ->
  SimpleServer.handleRequest message
  = [SimpleServer.send (invalid_params_envelope id issues)].
Proof.
  intros id params issues Hmethod Hname Hargs Hbad.
  unfold SimpleServer.handleRequest. rewrite (simple_tool_call _ Hmethod).
  cbv zeta. fold params. rewrite Hname, Hargs.
  change (registry_get SimpleServer.tools (JStr (lit "add")))
    with (@inr native_error _ (Own SimpleServer.add)).
  cbn [lift bind SimpleServer.schema SimpleServer.add].
  unfold parse, safeParse. cbn [parse_shape parse_field].
  subst issues. revert Hbad.
  destruct (get_prop (JObj fields) (lit "a")) as [| | |[]| | |];
    destruct (get_prop (JObj fields) (lit "b")) as [| | |[]| | |];
    cbn; intros Hbad; try reflexivity; now destruct Hbad.
Qed.

Lemma add_reports_every_bad_field_witness :
  let id := JNum (number_of_Z 6) in
  SimpleServer.handleRequest (R := Node.runtime)
    (request id "tool.call" (call "add" (JObj [(lit "b", JStr (lit "5"))])))
  = [SimpleServer.send (R := Node.runtime)
       (invalid_params_envelope (R := Node.runtime) id
          [invalid_type (lit "number") (lit "undefined") [lit "a"];
           invalid_type (lit "number") (lit "string") [lit "b"]])].
Proof.
  intros id.
  apply (add_reports_every_bad_field Node.runtime
           (request id "tool.call" (call "add" (JObj [(lit "b", JStr (lit "5"))])))
           [(lit "b", JStr (lit "5"))]); try reflexivity.
  discriminate.
Defined.
